(** * singapore_unibot: the lesson-check engine and the schedule sanitizer

    A shallow embedding of [app/utils/lesson_check.py] and of
    [sanitize_schedule_data] from [app/utils/schedule.py], with the
    properties the specification states about them.

    Conventions of the embedding:
    - a lesson is a Python [dict] with string keys: [gmap string pyval];
    - [notified_set] is a Python [set] of tuples: a [gset];
    - Python exceptions are values of [exn]; a computation that may raise
      returns [result A]; the module's functions run in the monad [M],
      which threads the module state (the set, the log, the messages
      handed to the bot) and keeps that state when an exception is raised;
    - external collaborators (database queries, the bot, the lexicon, the
      random generator, APScheduler) are fields of the records
      [collaborators] and [apscheduler].  Each call takes the value of a
      logical clock that advances at every external call, so two calls
      with the same arguments may answer differently;
    - [await] is sequential composition: interleaving with other asyncio
      tasks is outside this model; the cancellation of the task shows as
      a call that raises outside [Exception], which [except Exception]
      does not catch;
    - strings are sequences of 8-bit characters; Python's [\d] also accepts
      non-ASCII decimal digits, which are outside this model. *)

From stdpp Require Import base option list strings pretty gmap.
From Stdlib Require Import ZArith Lia Ascii.

Open Scope Z_scope.

(** ** Python values, truthiness and exceptions *)

(** The scalar JSON values a schedule record carries. *)
Inductive pyval : Type :=
| PNone
| PBool (b : bool)
| PInt (n : Z)
| PStr (s : string).

Global Instance pyval_eq_dec : EqDecision pyval.
Proof. solve_decision. Defined.

Definition pyval_enc (v : pyval) : unit + bool + Z + string :=
  match v with
  | PNone => inl (inl (inl tt))
  | PBool b => inl (inl (inr b))
  | PInt n => inl (inr n)
  | PStr s => inr s
  end.

Definition pyval_dec (x : unit + bool + Z + string) : pyval :=
  match x with
  | inl (inl (inl _)) => PNone
  | inl (inl (inr b)) => PBool b
  | inl (inr n) => PInt n
  | inr s => PStr s
  end.

Global Instance pyval_countable : Countable pyval.
Proof.
  refine (inj_countable' pyval_enc pyval_dec _).
  by intros [].
Defined.

(** [bool(v)] *)
Definition truthy (v : pyval) : bool :=
  match v with
  | PNone => false
  | PBool b => b
  | PInt n => negb (n =? 0)
  | PStr s => negb (String.eqb s "")
  end.

(** [v == "literal"]: only a [str] equals a [str]. *)
Definition eq_str (v : pyval) (lit : string) : bool :=
  match v with
  | PStr s => String.eqb s lit
  | _ => false
  end.

(** Python's [==] identifies [True] with [1] and [False] with [0], and so
    do hashing and set membership: a value stands in a tuple key as its
    representative under [==]. *)
Definition hash_norm (v : pyval) : pyval :=
  match v with
  | PBool b => PInt (Z.b2z b)
  | _ => v
  end.

(** What a [raise] carries.  The first five are instances of Python's
    [Exception]; [BaseError name] is an instance of [BaseException] that is
    not an [Exception]: [asyncio.CancelledError], raised at an [await] when
    the task is cancelled, [KeyboardInterrupt], [SystemExit]. *)
Inductive exn : Type :=
| KeyError (key : string)
| TypeError
| IndexError
| OverflowError
| ExternalError (name : string)
| BaseError (name : string).

Global Instance exn_eq_dec : EqDecision exn.
Proof. solve_decision. Defined.

(** [isinstance(e, Exception)] *)
Definition is_Exception (e : exn) : bool :=
  match e with
  | BaseError _ => false
  | _ => true
  end.

Inductive result (A : Type) : Type :=
| Ok (a : A)
| Raise (e : exn).
Arguments Ok {A} a.
Arguments Raise {A} e.

(** A lesson record as the schedule provider delivers it. *)
Abbreviation dict := (gmap string pyval).

(** [d.get(k)] with the default [None] *)
Definition dict_get (d : dict) (k : string) : pyval :=
  default PNone (d !! k).

(** [d[k]] *)
Definition getitem (d : dict) (k : string) : result pyval :=
  match d !! k with
  | Some v => Ok v
  | None => Raise (KeyError k)
  end.

(** [s[:n]] for [n >= 0] *)
Definition str_prefix (n : nat) (s : string) : string :=
  String.substring 0 n s.

(** [s[:-3]] *)
Definition drop_last3 (s : string) : string :=
  String.substring 0 (String.length s - 3) s.

(** ** [datetime.time], [datetime.date] *)

Record time : Type := mk_time {
  hour : Z;
  minute : Z;
  second : Z;
  microsecond : Z
}.

Global Instance time_eq_dec : EqDecision time.
Proof. solve_decision. Defined.

(** The constructor of [datetime.time] accepts exactly these. *)
Definition valid_time (t : time) : Prop :=
  0 <= hour t < 24 /\ 0 <= minute t < 60 /\ 0 <= second t < 60
  /\ 0 <= microsecond t < 1000000.

(** [a <= b] on [time] objects: the tuples
    [(hour, minute, second, microsecond)] compared lexicographically. *)
Definition time_le (a b : time) : bool :=
  if hour a <? hour b then true
  else if hour b <? hour a then false
  else if minute a <? minute b then true
  else if minute b <? minute a then false
  else if second a <? second b then true
  else if second b <? second a then false
  else microsecond a <=? microsecond b.

Definition us_per_day : Z := 86400000000.

(** Microseconds since midnight. *)
Definition us_of_time (t : time) : Z :=
  ((hour t * 60 + minute t) * 60 + second t) * 1000000 + microsecond t.

Definition time_of_us (u : Z) : time :=
  {| hour := u / 3600000000;
     minute := (u / 60000000) mod 60;
     second := (u / 1000000) mod 60;
     microsecond := u mod 1000000 |}.

(** [(datetime.combine(date.today(), t) - timedelta(minutes=n)).time()]:
    the subtraction may cross midnight into the previous day, and
    [.time()] drops the date, so the result is taken modulo one day
    (today is far from [date.min]: the subtraction does not overflow). *)
Definition minus_minutes (t : time) (n : Z) : time :=
  time_of_us ((us_of_time t - n * 60000000) mod us_per_day).


Record date : Type := mk_date {
  year : Z;
  month : Z;
  day : Z
}.

Global Instance date_eq_dec : EqDecision date.
Proof. solve_decision. Defined.

Record datetime : Type := mk_datetime {
  dt_date : date;
  dt_time : time
}.

Definition is_leap (y : Z) : bool :=
  (y mod 4 =? 0) && (negb (y mod 100 =? 0) || (y mod 400 =? 0)).

Definition days_in_month (y m : Z) : Z :=
  if m =? 2 then (if is_leap y then 29 else 28)
  else if (m =? 4) || (m =? 6) || (m =? 9) || (m =? 11) then 30
  else 31.

Definition valid_date (d : date) : Prop :=
  1 <= year d <= 9999 /\ 1 <= month d <= 12
  /\ 1 <= day d <= days_in_month (year d) (month d).

(** [d - timedelta(days=1)]: the previous calendar day; [date.min] has
    none and the subtraction raises [OverflowError]. *)
Definition minus_one_day (d : date) : result date :=
  if 1 <? day d then Ok (mk_date (year d) (month d) (day d - 1))
  else if 1 <? month d then
    Ok (mk_date (year d) (month d - 1) (days_in_month (year d) (month d - 1)))
  else if 1 <? year d then Ok (mk_date (year d - 1) 12 31)
  else Raise OverflowError.

(** [d.toordinal()], the way [datetime] computes it: the number of the
    day, 0001-01-01 being day 1. *)
Definition days_before_year (y : Z) : Z :=
  let y' := y - 1 in y' * 365 + y' / 4 - y' / 100 + y' / 400.

Definition days_before_month (y m : Z) : Z :=
  nth (Z.to_nat m) [0; 0; 31; 59; 90; 120; 151; 181; 212; 243; 273; 304; 334] 0
  + (if (2 <? m) && is_leap y then 1 else 0).

Definition toordinal (d : date) : Z :=
  days_before_year (year d) + days_before_month (year d) (month d) + day d.

(** [d.weekday()]: Monday is 0 and Sunday is 6. *)
Definition weekday (d : date) : Z := (toordinal d + 6) mod 7.

(** [d - timedelta(days=n)] for [n >= 0]: the date whose ordinal is
    smaller by [n], reached one day at a time; [OverflowError] when the
    ordinal would drop below that of [date.min]. *)
Fixpoint minus_days (d : date) (n : nat) : result date :=
  match n with
  | O => Ok d
  | S n' =>
      match minus_one_day d with
      | Ok d' => minus_days d' n'
      | Raise e => Raise e
      end
  end.

Definition digit_char (n : Z) : ascii :=
  ascii_of_nat (Z.to_nat (48 + n mod 10)).

(** ["%02d" % n] for [0 <= n < 100] *)
Definition pad2 (n : Z) : string :=
  String (digit_char (n / 10)) (String (digit_char n) "").

(** ["%04d" % n] for [0 <= n < 10000] *)
Definition pad4 (n : Z) : string :=
  String (digit_char (n / 1000)) (String (digit_char (n / 100))
    (String (digit_char (n / 10)) (String (digit_char n) ""))).

(** [d.isoformat()]: ["%04d-%02d-%02d"] *)
Definition isoformat (d : date) : string :=
  pad4 (year d) +:+ "-" +:+ pad2 (month d) +:+ "-" +:+ pad2 (day d).

(** ** [datetime.strptime(t, "%H:%M:%S")] *)

Definition is_digit (c : ascii) : bool :=
  (48 <=? nat_of_ascii c)%nat && (nat_of_ascii c <=? 57)%nat.

Definition digit_val (c : ascii) : Z := Z.of_nat (nat_of_ascii c) - 48.

(** A digit with value in [lo..hi]: the character class [[lo-hi]]. *)
Definition in_class (lo hi : Z) (c : ascii) : bool :=
  is_digit c && (lo <=? digit_val c) && (digit_val c <=? hi).

(** Matches of a two-character alternative [[a-b][c-d]] at the head of
    [s]: the number read and the rest of the string. *)
Definition re_two (lo1 hi1 lo2 hi2 : Z) (s : string) : list (Z * string) :=
  match s with
  | String c1 (String c2 r) =>
      if in_class lo1 hi1 c1 && in_class lo2 hi2 c2
      then [(10 * digit_val c1 + digit_val c2, r)] else []
  | _ => []
  end.

(** Matches of [\d] at the head of [s]. *)
Definition re_one (s : string) : list (Z * string) :=
  match s with
  | String c r => if is_digit c then [(digit_val c, r)] else []
  | _ => []
  end.

(** [%H] is [(2[0-3]|[0-1]\d|\d)], [%M] is [([0-5]\d|\d)] and [%S] is
    [(6[0-1]|[0-5]\d|\d)]; alternatives are tried from left to right. *)
Definition re_H (s : string) : list (Z * string) :=
  re_two 2 2 0 3 s ++ re_two 0 1 0 9 s ++ re_one s.
Definition re_M (s : string) : list (Z * string) :=
  re_two 0 5 0 9 s ++ re_one s.
Definition re_S (s : string) : list (Z * string) :=
  re_two 6 6 0 1 s ++ re_two 0 5 0 9 s ++ re_one s.

Definition re_colon (s : string) : list string :=
  match s with
  | String c r => if Ascii.eqb c ":"%char then [r] else []
  | _ => []
  end.

(** All matches of the compiled pattern at the start of [s], in the order
    the backtracking matcher finds them. *)
Definition re_HMS (s : string) : list (Z * Z * Z * string) :=
  '(h, r1) ← re_H s;
  r2 ← re_colon r1;
  '(m, r3) ← re_M r2;
  r4 ← re_colon r3;
  '(sec, r5) ← re_S r4;
  [(h, m, sec, r5)].

(** [datetime.strptime(s, "%H:%M:%S").time()] for a [str] argument;
    [None] stands for [ValueError]: no match, unconverted data after the
    first match, or a second of 60 or 61, which the pattern accepts and
    the [datetime] constructor refuses. *)
Definition strptime_HMS (s : string) : option time :=
  match re_HMS s with
  | (h, m, sec, rest) :: _ =>
      if String.eqb rest "" && (sec <=? 59) then Some (mk_time h m sec 0)
      else None
  | [] => None
  end.

(** ** The module state and its monad *)

(** The [type] of a check task: ["entry"] or ["exit"]. *)
Inductive action : Type := Entry | Exit.

Global Instance action_eq_dec : EqDecision action.
Proof. solve_decision. Defined.

Global Instance action_countable : Countable action.
Proof.
  refine (inj_countable' (fun a => match a with Entry => true | Exit => false end)
            (fun b : bool => if b then Entry else Exit) _).
  by intros [].
Defined.

Definition action_str (a : action) : string :=
  match a with Entry => "entry" | Exit => "exit" end.

(** An element of the list [get_lessons_to_check] returns:
    [{"lesson": ..., "type": ..., "students": ...}]. *)
Record task : Type := mk_task {
  task_lesson : dict;
  task_type : action;
  task_students : list Z
}.

(** [(user_id, lesson["moduleName"], action_type)] *)
Abbreviation key := (Z * pyval * action)%type.

Inductive level : Type := DEBUG | INFO | WARNING | ERROR.

(** One constructor per logging call of the module. *)
Inductive message : Type :=
| MsgParseTimeFailed (t : string)
| MsgNoGroupId (module_name : pyval)
| MsgNoStudents (group_id : Z)
| MsgAddedCheck (a : action) (module_name : pyval) (deadline : time)
| MsgStarting (now : datetime)
| MsgNoSchedules (today : date)
| MsgFound (n : nat) (group_id : option Z)
| MsgAlreadyNotified (user_id : Z) (module_name : pyval) (a : action)
| MsgSent (user_id : Z) (text : string)
| MsgSendFailed (user_id : Z) (e : exn)
| MsgCycleError (e : exn)
| MsgSettingUp
| MsgAddedJob (h m : Z) (label : string)
| MsgSchedulerStarted
| MsgSetupFailed (e : exn).

Definition level_of (m : message) : level :=
  match m with
  | MsgParseTimeFailed _ => ERROR
  | MsgNoGroupId _ => WARNING
  | MsgNoStudents _ => DEBUG
  | MsgAddedCheck _ _ _ => DEBUG
  | MsgStarting _ => INFO
  | MsgNoSchedules _ => WARNING
  | MsgFound _ _ => INFO
  | MsgAlreadyNotified _ _ _ => DEBUG
  | MsgSent _ _ => INFO
  | MsgSendFailed _ _ => ERROR
  | MsgCycleError _ => ERROR
  | MsgSettingUp => INFO
  | MsgAddedJob _ _ _ => INFO
  | MsgSchedulerStarted => INFO
  | MsgSetupFailed _ => ERROR
  end.

(** What the module owns or touches: the global [notified_set], the
    records handed to [logger], the messages the bot delivered, and the
    logical clock of external calls. *)
Record state : Type := mk_state {
  notified_set : gset key;
  log : list message;
  sent : list (Z * string);
  clock : nat
}.

Definition M (A : Type) : Type := state -> result A * state.

Global Instance M_ret : MRet M := fun A a st => (Ok a, st).

Global Instance M_bind : MBind M := fun A B f m st =>
  match m st with
  | (Ok a, st') => f a st'
  | (Raise e, st') => (Raise e, st')
  end.

(** [raise e] *)
Definition raise {A} (e : exn) : M A := fun st => (Raise e, st).

(** An expression that may raise, evaluated without touching the state. *)
Definition lift {A} (r : result A) : M A := fun st => (r, st).

(** [logger.<level>(msg)] *)
Definition logger (m : message) : M unit := fun st =>
  (Ok tt, mk_state (notified_set st) (log st ++ [m]) (sent st) (clock st)).

(** A call to an external collaborator: it answers for the current value
    of the clock, and the clock advances. *)
Definition call {A} (f : nat -> result A) : M A := fun st =>
  (f (clock st),
   mk_state (notified_set st) (log st) (sent st) (S (clock st))).

(** [key in notified_set] *)
Definition is_notified (k : key) : M bool := fun st =>
  (Ok (bool_decide (k ∈ notified_set st)), st).

(** [notified_set.add(key)] *)
Definition notified_add (k : key) : M unit := fun st =>
  (Ok tt, mk_state ({[k]} ∪ notified_set st) (log st) (sent st) (clock st)).

(** [try: body / except Exception as e: handler(e)]: the handler runs for
    an instance of [Exception]; any other exception leaves the statement
    as it was raised. *)
Definition try_except {A} (body : M A) (handler : exn -> M A) : M A :=
  fun st =>
    match body st with
    | (Ok a, st') => (Ok a, st')
    | (Raise e, st') =>
        if is_Exception e then handler e st' else (Raise e, st')
    end.

(** [for x in l: acc = body(x, acc)], left to right; an exception leaves
    the loop. *)
Fixpoint for_each {A S : Type} (body : A -> S -> M S) (l : list A) (acc : S)
  : M S :=
  match l with
  | [] => mret acc
  | x :: l' => acc' ← body x acc; for_each body l' acc'
  end.

(** ** [sanitize_schedule_data] *)

Definition needed_fields : list string :=
  ["scheduleDate"; "startTime"; "endTime"; "moduleName"; "venueName";
   "lecturerName"; "lessonTypeName"; "scheduleStatus"].

(** [{key: item[key] for key in needed_fields if key in item}] *)
Definition sanitize_item (item : dict) : dict :=
  foldl (fun (out : dict) (k : string) =>
           match item !! k with
           | Some v => <[k := v]> out
           | None => out
           end) ∅ needed_fields.

Definition sanitize_schedule_data (data : list dict) : list dict :=
  map sanitize_item data.

(** [get_week_start(date_)]:
    [date_ - timedelta(days=date_.weekday())] *)
Definition get_week_start (date_ : date) : result date :=
  minus_days date_ (Z.to_nat (weekday date_)).

(** ** [app/utils/lesson_check.py] *)

Definition REMINDER_TIMES : list (time * string) :=
  [ (mk_time 9 35 0 0, "entry");  (mk_time 10 55 0 0, "exit");
    (mk_time 11 5 0 0, "entry");  (mk_time 12 25 0 0, "exit");
    (mk_time 12 35 0 0, "entry"); (mk_time 13 55 0 0, "exit");
    (mk_time 13 5 0 0, "entry");  (mk_time 15 25 0 0, "exit");
    (mk_time 15 35 0 0, "entry"); (mk_time 16 55 0 0, "exit");
    (mk_time 17 5 0 0, "entry");  (mk_time 18 25 0 0, "exit") ].

(** [parse_time(t)]: [ValueError] is logged and turned into [None]; a
    [t] that is not a [str] makes [strptime] raise [TypeError], which is
    not caught here. *)
Definition parse_time (t : pyval) : M (option time) :=
  match t with
  | PStr s =>
      match strptime_HMS s with
      | Some d => mret (Some d)
      | None => logger (MsgParseTimeFailed s);; mret None
      end
  | _ => raise TypeError
  end.

(** The attendance flag and the deadline field of each block. *)
Definition flag_key (a : action) : string :=
  match a with Entry => "checkIn" | Exit => "checkOut" end.
Definition end_key (a : action) : string :=
  match a with Entry => "checkinEnd" | Exit => "checkoutEnd" end.

(** [window_start <= now <= checkin_end] *)
Definition in_window (deadline now : time) : bool :=
  let window_start := minus_minutes deadline 5 in
  time_le window_start now && time_le now deadline.

(** One of the two blocks [if not lesson.get(flag): ...] of the loop
    body (lines 66-77 for [Entry], 79-90 for [Exit]; they differ in the
    keys and the type only).  [None] is the block's [continue]. *)
Definition window_block (lesson : dict) (students : list Z) (now : time)
    (a : action) (acc : list task) : M (option (list task)) :=
  if truthy (dict_get lesson (flag_key a)) then mret (Some acc)
  else
    v ← lift (getitem lesson (end_key a));
    parsed ← parse_time v;
    match parsed with
    | None => mret None
    | Some deadline =>
        if in_window deadline now then
          name ← lift (getitem lesson "moduleName");
          logger (MsgAddedCheck a name deadline);;
          mret (Some (acc ++ [mk_task lesson a students]))
        else mret (Some acc)
    end.

(** [lesson.get("scheduleDate", "")[:10]] *)
Definition schedule_date_prefix (lesson : dict) : result string :=
  match lesson !! "scheduleDate" with
  | None => Ok (str_prefix 10 "")
  | Some (PStr s) => Ok (str_prefix 10 s)
  | Some _ => Raise TypeError
  end.

(** The collaborators of the module, which live outside it. *)
Record collaborators : Type := {
  (** [app.db.crud.schedule.get_students_by_group_with_digest] *)
  get_students_by_group_with_digest : nat -> Z -> result (list Z);
  (** [app.db.crud.schedule.get_all_group_schedules_today]: the items of
      the mapping, in iteration order. *)
  get_all_group_schedules_today :
    nat -> date -> result (list (option Z * list dict));
  (** [app.db.crud.user.get_user_language] *)
  get_user_language : nat -> Z -> result (option string);
  (** [app.lexicon.lexicon.LEXICON_MSG] *)
  LEXICON_MSG : gmap string (gmap string (list string));
  (** [random._randbelow] *)
  randbelow : nat -> nat -> nat;
  (** [str.format] with two positional arguments *)
  str_format : string -> pyval -> string -> result string;
  (** [bot.send_message] *)
  bot_send_message : nat -> Z -> string -> result unit
}.

Section LessonCheck.

Variable env : collaborators.

(** The body of [for lesson in schedule_data], on the list [result]. *)
Definition lesson_body (group_id : option Z) (now : time)
    (today_str : string) (lesson : dict) (acc : list task)
  : M (list task) :=
  if negb (eq_str (dict_get lesson "scheduleStatus") "ACTIVE") then mret acc
  else
    d ← lift (schedule_date_prefix lesson);
    if negb (String.eqb d today_str) then mret acc
    else
      match group_id with
      | None =>
          logger (MsgNoGroupId (dict_get lesson "moduleName"));; mret acc
      | Some gid =>
          students ← call (fun t => get_students_by_group_with_digest env t gid);
          match students with
          | [] => logger (MsgNoStudents gid);; mret acc
          | _ :: _ =>
              r1 ← window_block lesson students now Entry acc;
              match r1 with
              | None => mret acc
              | Some acc1 =>
                  r2 ← window_block lesson students now Exit acc1;
                  match r2 with
                  | None => mret acc1
                  | Some acc2 => mret acc2
                  end
              end
          end
      end.

Definition get_lessons_to_check (group_id : option Z)
    (schedule_data : list dict) (current_time : datetime)
  : M (list task) :=
  let now := dt_time current_time in
  yesterday ← lift (minus_one_day (dt_date current_time));
  let today_str := isoformat yesterday in
  for_each (lesson_body group_id now today_str) schedule_data [].

(** [random.choice(seq)] *)
Definition random_choice (seq : list string) : M string :=
  match seq with
  | [] => raise IndexError
  | x :: _ =>
      i ← call (fun t => Ok (randbelow env t (length seq)));
      mret (nth (i mod length seq)%nat seq x)
  end.

(** [LEXICON_MSG[k][lang]] *)
Definition lexicon (k lang : string) : result (list string) :=
  match LEXICON_MSG env !! k with
  | None => Raise (KeyError k)
  | Some by_lang =>
      match by_lang !! lang with
      | None => Raise (KeyError lang)
      | Some templates => Ok templates
      end
  end.

(** [lesson[k][:-3]] *)
Definition hhmm (lesson : dict) (k : string) : result string :=
  match getitem lesson k with
  | Ok (PStr s) => Ok (drop_last3 s)
  | Ok _ => Raise TypeError
  | Raise e => Raise e
  end.

(** The language and the text of the reminder: lines 125-140. *)
Definition message_text (lesson : dict) (a : action) (user_id : Z)
  : M string :=
  l ← call (fun t => get_user_language env t user_id);
  let lang := match l with
              | Some s => if String.eqb s "" then "en" else s
              | None => "en"
              end in
  templates ← lift (lexicon (match a with
                             | Entry => "lesson_check_entry"
                             | Exit => "lesson_check_exit"
                             end) lang);
  text_template ← random_choice templates;
  name ← lift (getitem lesson "moduleName");
  t ← lift (hhmm lesson (match a with
                         | Entry => "startTime"
                         | Exit => "endTime"
                         end));
  lift (str_format env text_template name t).

(** [await bot.send_message(user_id, text)]; a delivered message is
    recorded in [sent]. *)
Definition send_message (user_id : Z) (text : string) : M unit := fun st =>
  match bot_send_message env (clock st) user_id text with
  | Ok _ =>
      (Ok tt, mk_state (notified_set st) (log st)
                (sent st ++ [(user_id, text)]) (S (clock st)))
  | Raise e =>
      (Raise e, mk_state (notified_set st) (log st) (sent st)
                  (S (clock st)))
  end.

(** The [try] statement of lines 142-151. *)
Definition send_and_record (user_id : Z) (text : string) (k : key)
  : M unit :=
  try_except
    (send_message user_id text;;
     logger (MsgSent user_id text);;
     notified_add k)
    (fun e => logger (MsgSendFailed user_id e)).

(** The body of [for user_id in students]: lines 118-151. *)
Definition notify_student (lesson : dict) (a : action) (user_id : Z)
  : M unit :=
  name ← lift (getitem lesson "moduleName");
  let k : key := (user_id, hash_norm name, a) in
  seen ← is_notified k;
  if seen : bool then logger (MsgAlreadyNotified user_id name a)
  else
    text ← message_text lesson a user_id;
    send_and_record user_id text k.

(** A loop whose body keeps no accumulator. *)
Definition for_each_ {A} (body : A -> M unit) (l : list A) : M unit :=
  for_each (fun x _ => body x) l tt.

(** The body of [for entry in lessons_to_check]. *)
Definition process_task (entry : task) : M unit :=
  for_each_ (notify_student (task_lesson entry) (task_type entry))
    (task_students entry).

(** The body of [for group_id, schedule_data in group_schedules.items()]. *)
Definition process_group (now : datetime)
    (item : option Z * list dict) : M unit :=
  lessons_to_check ← get_lessons_to_check item.1 item.2 now;
  logger (MsgFound (length lessons_to_check) item.1);;
  for_each_ process_task lessons_to_check.

(** [check_lesson_marks(bot)]; [now] and [today] are what
    [datetime.now()] and [date.today()] answer. *)
Definition check_lesson_marks (now : datetime) (today : date) : M unit :=
  try_except
    (logger (MsgStarting now);;
     group_schedules ←
       call (fun t => get_all_group_schedules_today env t today);
     match group_schedules with
     | [] => logger (MsgNoSchedules today)
     | _ :: _ => for_each_ (process_group now) group_schedules
     end)
    (fun e => logger (MsgCycleError e)).

(** The state after the cycles fired at the given readings of
    [datetime.now()] and [date.today()], one after the other. *)
Definition run_cycles (fires : list (datetime * date)) (st : state) : state :=
  foldl (fun s fire => (check_lesson_marks fire.1 fire.2 s).2) st fires.

End LessonCheck.

(** APScheduler: the scheduler object, a cron trigger, and the calls the
    module makes on them. *)
Record apscheduler : Type := {
  scheduler : Type;
  trigger : Type;
  AsyncIOScheduler : nat -> string -> result scheduler;
  CronTrigger : nat -> Z -> Z -> string -> result trigger;
  add_job : nat -> scheduler -> trigger -> string -> result unit;
  start : nat -> scheduler -> result unit
}.

Section Scheduler.

Variable aps : apscheduler.

(** [f"lesson_check_{t.hour}_{t.minute}_{label}"] *)
Definition job_id (t : time) (label : string) : string :=
  "lesson_check_" +:+ pretty (hour t) +:+ "_" +:+ pretty (minute t)
    +:+ "_" +:+ label.

(** The body of [for t, label in REMINDER_TIMES]. *)
Definition register_job (s : scheduler aps) (item : time * string)
  : M unit :=
  trg ← call (fun c =>
                CronTrigger aps c (hour item.1) (minute item.1) "mon-sat");
  call (fun c => add_job aps c s trg (job_id item.1 item.2));;
  logger (MsgAddedJob (hour item.1) (minute item.1) item.2).

Definition setup_body : M unit :=
  s ← call (fun c => AsyncIOScheduler aps c "UTC");
  logger MsgSettingUp;;
  for_each (fun item _ => register_job s item) REMINDER_TIMES tt;;
  call (fun c => start aps c s);;
  logger MsgSchedulerStarted.

(** [setup_lesson_check_scheduler(bot)]: the handler logs and re-raises. *)
Definition setup_lesson_check_scheduler : M unit :=
  try_except setup_body
    (fun e => logger (MsgSetupFailed e);; raise e).

End Scheduler.

(** ** Vocabulary of the properties *)

(** The tasks a call produced: those of the list it returned, none when
    it raised. *)
Definition produced {A} (r : result (list A) * state) : list A :=
  match r.1 with
  | Ok l => l
  | Raise _ => []
  end.

(** The deadline a block reads: [parse_time(lesson[end_key])]. *)
Definition deadline (lesson : dict) (a : action) : option time :=
  match lesson !! end_key a with
  | Some (PStr s) => strptime_HMS s
  | _ => None
  end.

(** [now] lies between the code's [window_start] for the deadline [d]
    and [d], both bounds included.  [window_start] is a time of day: for
    a deadline before 00:05:00 it is a time of the evening, after [d],
    and no [now] lies in between. *)
Definition in_closed_window (d now : time) : Prop :=
  us_of_time (minus_minutes d 5) <= us_of_time now <= us_of_time d.





(** The entry block does not skip the lesson: it is not entered, or the
    deadline it reads parses. *)
Definition exit_reached (lesson : dict) : Prop :=
  truthy (dict_get lesson "checkIn") = true
  \/ is_Some (deadline lesson Entry).

(** The flag of the block is falsy and [now] is between the code's
    [window_start] and the deadline. *)
Definition window_open (lesson : dict) (a : action) (now : time) : Prop :=
  truthy (dict_get lesson (flag_key a)) = false
  /\ exists d, deadline lesson a = Some d /\ in_closed_window d now.

Global Instance in_closed_window_dec (d now : time) :
  Decision (in_closed_window d now).
Proof. unfold in_closed_window. apply _. Defined.

Global Instance window_open_dec (lesson : dict) (a : action) (now : time) :
  Decision (window_open lesson a now).
Proof.
  unfold window_open. destruct (deadline lesson a) as [d|].
  - destruct (decide (truthy (dict_get lesson (flag_key a)) = false
                      /\ in_closed_window d now)) as [H|H]; [left|right].
    + destruct H. eauto.
    + intros (? & ? & [= <-] & ?). tauto.
  - right. by intros (_ & ? & ? & _).
Defined.

(** An ACTIVE lesson dated [today_str]. *)
Definition eligible (today_str : string) (lesson : dict) : Prop :=
  lesson !! "scheduleStatus" = Some (PStr "ACTIVE")
  /\ exists s, lesson !! "scheduleDate" = Some (PStr s)
               /\ str_prefix 10 s = today_str.

Global Instance eligible_dec (today_str : string) (lesson : dict) :
  Decision (eligible today_str lesson).
Proof.
  unfold eligible. destruct (lesson !! "scheduleDate") as [[| | |s]|];
    try (right; by intros (_ & ? & [=] & _)).
  destruct (decide (lesson !! "scheduleStatus" = Some (PStr "ACTIVE")
                    /\ str_prefix 10 s = today_str)) as [H|H]; [left|right].
  - destruct H. eauto.
  - intros (? & ? & [= <-] & ?). tauto.
Defined.

(** A lesson that the first two tests of the loop body pass over: it is
    not ACTIVE, or its [scheduleDate] is absent or is a string for
    another day. *)
Definition passed_over (today_str : string) (lesson : dict) : Prop :=
  lesson !! "scheduleStatus" <> Some (PStr "ACTIVE")
  \/ exists p, schedule_date_prefix lesson = Ok p /\ p <> today_str.

(** What holds of every task that the loop body adds: its lesson is
    ACTIVE and dated [today_str], it has students, and it was added by a
    block whose flag is falsy and whose window test succeeded. *)
Definition justified (now : time) (today_str : string) (t : task) : Prop :=
  eligible today_str (task_lesson t)
  /\ task_students t <> []
  /\ truthy (dict_get (task_lesson t) (flag_key (task_type t))) = false
  /\ exists d, deadline (task_lesson t) (task_type t) = Some d
               /\ in_window d now = true.

(** What a block hands back when the record has what the block reads:
    [None] is its [continue]. *)
Definition block_outcome (lesson : dict) (students : list Z) (now : time)
    (a : action) (acc : list task) : option (list task) :=
  if truthy (dict_get lesson (flag_key a)) then Some acc
  else match deadline lesson a with
       | None => None
       | Some d =>
           if in_window d now then Some (acc ++ [mk_task lesson a students])
           else Some acc
       end.

(** The list the loop body returns for an eligible, readable lesson of a
    group with students. *)
Definition body_outcome (lesson : dict) (students : list Z) (now : time)
    (acc : list task) : list task :=
  match block_outcome lesson students now Entry acc with
  | None => acc
  | Some acc1 =>
      match block_outcome lesson students now Exit acc1 with
      | None => acc1
      | Some acc2 => acc2
      end
  end.

(** The record has what a block reads at [now]: when the flag of the
    block is falsy, a string under the deadline key of the block, and,
    when that string parses to a deadline whose window test succeeds,
    the module name. *)
Definition block_readable (lesson : dict) (now : time) (a : action) : Prop :=
  truthy (dict_get lesson (flag_key a)) = false ->
  exists s, lesson !! end_key a = Some (PStr s)
            /\ (forall d, strptime_HMS s = Some d -> in_window d now = true ->
                   is_Some (lesson !! "moduleName")).

(** The record has what the two blocks read at [now]; the exit block
    reads only when the entry block did not skip the lesson. *)
Definition readable (now : time) (lesson : dict) : Prop :=
  block_readable lesson now Entry
  /\ (exit_reached lesson -> block_readable lesson now Exit).



(** [st'] comes after [st] in the life of the process: messages were
    only added to [sent], no key left [notified_set], and every key that
    entered it belongs to a user to whom one of the added messages was
    delivered. *)
Definition extends (st st' : state) : Prop :=
  exists new,
    sent st' = sent st ++ new
    /\ notified_set st ⊆ notified_set st'
    /\ forall k, k ∈ notified_set st' ->
         k ∈ notified_set st \/ exists text, (k.1.1, text) ∈ new.

(** A computation that takes every state to a later one, whatever its
    outcome. *)
Definition forward {A} (m : M A) : Prop :=
  forall st, extends st (m st).2.

(** A computation is [quiet] when it leaves [notified_set] and [sent] as
    they are, whatever its outcome: it may only log and advance the
    clock. *)
Definition quiet {A} (m : M A) : Prop :=
  forall st, notified_set (m st).2 = notified_set st
             /\ sent (m st).2 = sent st.

(** The state in which the jobs are registered: the scheduler was
    constructed and the set-up was announced. *)
Definition after_construction (st : state) : state :=
  mk_state (notified_set st) (log st ++ [MsgSettingUp]) (sent st)
    (S (clock st)).

(** *** The calls of the set-up

    In a set-up that starts when the clock reads [c], the constructor is
    the call [c]; as long as the calls before them returned, the trigger
    of the [i]-th reminder time is the call [c + 1 + 2 i], the [add_job]
    of that time is the call [c + 2 + 2 i], and [start] is the call after
    the last [add_job]. *)
Definition trigger_call (aps : apscheduler) (c i : nat)
    (item : time * string) : result (trigger aps) :=
  CronTrigger aps (c + 1 + 2 * i)%nat (hour item.1) (minute item.1) "mon-sat".

Definition add_job_call (aps : apscheduler) (s : scheduler aps) (c i : nat)
    (item : time * string) (trg : trigger aps) : result unit :=
  add_job aps (c + 2 + 2 * i)%nat s trg (job_id item.1 item.2).

Definition start_call (aps : apscheduler) (s : scheduler aps) (c : nat)
  : result unit :=
  start aps (c + 1 + 2 * length REMINDER_TIMES)%nat s.

(** [CronTrigger] made the trigger of the [i]-th reminder time and
    [add_job] accepted the job. *)
Definition job_registered (aps : apscheduler) (s : scheduler aps) (c i : nat)
    (item : time * string) : Prop :=
  exists trg, trigger_call aps c i item = Ok trg
              /\ add_job_call aps s c i item trg = Ok tt.

(** The jobs of the first [n] reminder times are registered. *)
Definition jobs_registered (aps : apscheduler) (s : scheduler aps) (c n : nat)
  : Prop :=
  forall i item, (i < n)%nat -> REMINDER_TIMES !! i = Some item ->
                 job_registered aps s c i item.

(** The ways in which a call to APScheduler can fail with the exception
    [e] in a set-up that starts in the state [st]: the constructor
    raises [e]; the jobs of the reminder times before the [i]-th are
    registered and [CronTrigger] raises [e] for the [i]-th; they are
    registered, [CronTrigger] makes the trigger of the [i]-th and
    [add_job] raises [e] for it; the jobs of all the reminder times are
    registered and [start] raises [e]. *)
Inductive setup_failure (aps : apscheduler) (st : state) (e : exn) : Prop :=
| construction_fails :
    AsyncIOScheduler aps (clock st) "UTC" = Raise e ->
    setup_failure aps st e
| trigger_fails (s : scheduler aps) (i : nat) (item : time * string) :
    AsyncIOScheduler aps (clock st) "UTC" = Ok s ->
    REMINDER_TIMES !! i = Some item ->
    jobs_registered aps s (clock st) i ->
    trigger_call aps (clock st) i item = Raise e ->
    setup_failure aps st e
| add_job_fails (s : scheduler aps) (i : nat) (item : time * string)
    (trg : trigger aps) :
    AsyncIOScheduler aps (clock st) "UTC" = Ok s ->
    REMINDER_TIMES !! i = Some item ->
    jobs_registered aps s (clock st) i ->
    trigger_call aps (clock st) i item = Ok trg ->
    add_job_call aps s (clock st) i item trg = Raise e ->
    setup_failure aps st e
| start_fails (s : scheduler aps) :
    AsyncIOScheduler aps (clock st) "UTC" = Ok s ->
    jobs_registered aps s (clock st) (length REMINDER_TIMES) ->
    start_call aps s (clock st) = Raise e ->
    setup_failure aps st e.

(** A lesson whose status and date the loop body can test without
    raising: it is passed over, or ACTIVE and dated [today_str]. *)
Definition datable (today_str : string) (lesson : dict) : Prop :=
  passed_over today_str lesson \/ eligible today_str lesson.

(** [st] with the given records logged and [n] more external calls
    made. *)
Definition logged (msgs : list message) (n : nat) (st : state) : state :=
  mk_state (notified_set st) (log st ++ msgs) (sent st) (clock st + n).

(** A computation that takes every state to one related to it by [R],
    whatever its outcome. *)
Definition keeps (R : state -> state -> Prop) {A} (m : M A) : Prop :=
  forall st, R st (m st).2.

(** As many messages were delivered between [st] and [st'] as keys
    entered [notified_set]. *)
Definition same_balance (st st' : state) : Prop :=
  (length (sent st') + size (notified_set st)
   = length (sent st) + size (notified_set st'))%nat.

(** The lexicon entry and the time field that the text of an action
    uses. *)
Definition template_key (a : action) : string :=
  match a with
  | Entry => "lesson_check_entry"
  | Exit => "lesson_check_exit"
  end.
Definition time_key (a : action) : string :=
  match a with Entry => "startTime" | Exit => "endTime" end.

(** [str(t)] for a time with no microseconds: ["%02d:%02d:%02d"]. *)
Definition time_str (t : time) : string :=
  pad2 (hour t) +:+ ":" +:+ pad2 (minute t) +:+ ":" +:+ pad2 (second t).

(** The first match of a list of alternatives. *)
Definition first_match {A} (l : list A) (x : A) : Prop :=
  exists tl, l = x :: tl.


(** ** Sample data

    The scenario of the specification: the lesson "Algebra" of
    2024-03-04, checked on 2024-03-05, for a group whose one
    digest-enabled student is user 7. *)

Definition st0 : state := mk_state ∅ [] [] 0.

Definition at_time (h m s : Z) : datetime :=
  mk_datetime (mk_date 2024 3 5) (mk_time h m s 0).

Definition algebra : dict :=
  list_to_map
    [("moduleName", PStr "Algebra");
     ("scheduleDate", PStr "2024-03-04T00:00:00");
     ("scheduleStatus", PStr "ACTIVE");
     ("startTime", PStr "09:35:00"); ("endTime", PStr "10:55:00");
     ("checkIn", PBool false); ("checkinEnd", PStr "09:40:00");
     ("checkOut", PBool false); ("checkoutEnd", PStr "11:00:00")].

(** A lesson so short that its two windows overlap. *)
Definition short_lesson : dict :=
  <["checkoutEnd" := PStr "09:42:00"]> algebra.



(** The check-in deadline is absent. *)
Definition no_checkin_end : dict := delete "checkinEnd" algebra.

(** The check-in deadline is JSON [null]. *)
Definition null_checkin_end : dict := <["checkinEnd" := PNone]> algebra.

(** The lesson was cancelled. *)
Definition cancelled : dict := <["scheduleStatus" := PStr "CANCELED"]> algebra.

(** A lesson whose check-in closes three minutes after midnight. *)
Definition midnight_lesson : dict :=
  <["checkinEnd" := PStr "00:03:00"]> algebra.


(** Sample collaborators: an English lexicon with one template per
    action, a formatter that appends its two arguments to the template,
    users with no language set, and the given students, schedules and
    bot. *)
Definition sample_lexicon : gmap string (gmap string (list string)) :=
  list_to_map
    [("lesson_check_entry", {["en" := ["Check in: "]]});
     ("lesson_check_exit", {["en" := ["Check out: "]]})].

Definition sample_format (template : string) (name : pyval) (t : string)
  : result string :=
  match name with
  | PStr s => Ok (template +:+ s +:+ " " +:+ t)
  | _ => Ok (template +:+ t)
  end.

Definition sample_world (students : list Z)
    (schedules : list (option Z * list dict))
    (bot : nat -> Z -> string -> result unit) : collaborators :=
  {| get_students_by_group_with_digest := fun _ _ => Ok students;
     get_all_group_schedules_today := fun _ _ => Ok schedules;
     get_user_language := fun _ _ => Ok None;
     LEXICON_MSG := sample_lexicon;
     randbelow := fun _ _ => 0%nat;
     str_format := sample_format;
     bot_send_message := bot |}.

Definition reliable_bot : nat -> Z -> string -> result unit :=
  fun _ _ _ => Ok tt.

(** The bot fails for user 7 and delivers to everybody else. *)
Definition flaky_bot : nat -> Z -> string -> result unit :=
  fun _ user_id _ =>
    if user_id =? 7 then Raise (ExternalError "TelegramForbiddenError")
    else Ok tt.


(** One group, one lesson, one student, a bot that delivers. *)
Definition sample_env : collaborators :=
  sample_world [7] [(Some 1, [algebra])] reliable_bot.

(** An APScheduler whose calls all succeed, and one that refuses the job
    of 13:05. *)
Definition sample_scheduler : apscheduler :=
  {| scheduler := unit;
     trigger := Z * Z;
     AsyncIOScheduler := fun _ _ => Ok tt;
     CronTrigger := fun _ h m _ => Ok (h, m);
     add_job := fun _ _ _ _ => Ok tt;
     start := fun _ _ => Ok tt |}.

Definition conflicting_scheduler : apscheduler :=
  {| scheduler := unit;
     trigger := Z * Z;
     AsyncIOScheduler := fun _ _ => Ok tt;
     CronTrigger := fun _ h m _ => Ok (h, m);
     add_job := fun _ _ _ id =>
       if String.eqb id "lesson_check_13_5_entry"
       then Raise (ExternalError "ConflictingIdError")
       else Ok tt;
     start := fun _ _ => Ok tt |}.

(** An APScheduler whose [CronTrigger] rejects the fields of 15:25, and
    one whose [start] is interrupted from the keyboard. *)
Definition rejecting_scheduler : apscheduler :=
  {| scheduler := unit;
     trigger := Z * Z;
     AsyncIOScheduler := fun _ _ => Ok tt;
     CronTrigger := fun _ h m _ =>
       if (h =? 15) && (m =? 25) then Raise (ExternalError "ValueError")
       else Ok (h, m);
     add_job := fun _ _ _ _ => Ok tt;
     start := fun _ _ => Ok tt |}.

Definition interrupted_scheduler : apscheduler :=
  {| scheduler := unit;
     trigger := Z * Z;
     AsyncIOScheduler := fun _ _ => Ok tt;
     CronTrigger := fun _ h m _ => Ok (h, m);
     add_job := fun _ _ _ _ => Ok tt;
     start := fun _ _ => Raise (BaseError "KeyboardInterrupt") |}.

(** The log of the six jobs registered before that of 13:05. *)
Definition six_jobs_added : list message :=
  map (fun item : time * string =>
         MsgAddedJob (hour item.1) (minute item.1) item.2)
    (take 6 REMINDER_TIMES).
(** ** Properties of [sanitize_schedule_data] *)

Lemma pick_fields_lookup (item out : dict) (fields : list string) (k : string) :
  foldl (fun (o : dict) (f : string) =>
           match item !! f with
           | Some v => <[f := v]> o
           | None => o
           end) out fields !! k
  = if bool_decide (k ∈ fields)
    then match item !! k with Some v => Some v | None => out !! k end
    else out !! k.
Proof.
  revert out. induction fields as [|f fields IH]; intros out; cbn [foldl].
  - case_bool_decide as Hk; [|done]. by apply elem_of_nil in Hk.
  - rewrite IH. destruct (decide (k = f)) as [->|Hne].
    + rewrite (bool_decide_eq_true_2 (f ∈ f :: fields)) by apply list_elem_of_here.
      destruct (item !! f) as [v|] eqn:Hf.
      * rewrite lookup_insert_eq. by case_bool_decide.
      * by case_bool_decide.
    + assert (Hiff : k ∈ f :: fields <-> k ∈ fields)
        by (rewrite elem_of_cons; intuition).
      rewrite (bool_decide_ext _ _ Hiff).
      destruct (item !! f) as [v|] eqn:Hf; [|done].
      by rewrite lookup_insert_ne.
Qed.

Lemma sanitize_item_lookup (item : dict) (k : string) :
  sanitize_item item !! k
  = if bool_decide (k ∈ needed_fields) then item !! k else None.
Proof.
  unfold sanitize_item. rewrite pick_fields_lookup, lookup_empty.
  by destruct (bool_decide (k ∈ needed_fields)), (item !! k).
Qed.

(** C10: [sanitize_schedule_data] keeps the length and the order of its
    input; the i-th output holds exactly the whitelisted fields that the
    i-th input has, with their values, so its keys are among the eight
    [needed_fields], and [checkIn], [checkOut], [checkinEnd] and
    [checkoutEnd] are absent from every output record. *)
Theorem sanitize_schedule_data_whitelist (data : list dict) :
  length (sanitize_schedule_data data) = length data
  /\ Forall2 (fun item out : dict =>
                forall k, out !! k =
                  if bool_decide (k ∈ needed_fields) then item !! k else None)
       data (sanitize_schedule_data data)
  /\ Forall (fun out : dict =>
               dom out ⊆ list_to_set needed_fields
               /\ out !! "checkIn" = None /\ out !! "checkOut" = None
               /\ out !! "checkinEnd" = None /\ out !! "checkoutEnd" = None)
       (sanitize_schedule_data data).
Proof.
  unfold sanitize_schedule_data. split; [by rewrite length_map|]. split.
  - induction data as [|item data IH]; constructor; [|done].
    intros k. apply sanitize_item_lookup.
  - apply Forall_forall. intros out Hin.
    apply list_elem_of_fmap in Hin as (item & -> & _).
    split; [|by rewrite !sanitize_item_lookup].
    intros k Hk. apply elem_of_dom in Hk as [v Hv].
    rewrite sanitize_item_lookup in Hv.
    destruct (bool_decide (k ∈ needed_fields)) eqn:Hb; [|done].
    apply bool_decide_eq_true_1 in Hb. by apply elem_of_list_to_set.
Qed.

(** ** Times of day *)

Lemma us_of_time_range (t : time) :
  valid_time t -> 0 <= us_of_time t < us_per_day.
Proof. unfold valid_time, us_of_time, us_per_day. lia. Qed.

Lemma time_le_us (a b : time) :
  valid_time a -> valid_time b ->
  time_le a b = (us_of_time a <=? us_of_time b).
Proof.
  unfold valid_time, time_le, us_of_time. intros Ha Hb.
  repeat match goal with
         | |- context [?x <? ?y] => destruct (Z.ltb_spec x y)
         end;
    symmetry; first [apply Z.leb_le; lia | apply Z.leb_gt; lia | idtac].
  destruct (Z.leb_spec (microsecond a) (microsecond b));
    [apply Z.leb_le | apply Z.leb_gt]; lia.
Qed.

Lemma time_le_trans (a b c : time) :
  time_le a b = true -> time_le b c = true -> time_le a c = true.
Proof.
  unfold time_le.
  repeat match goal with
         | |- context [?x <? ?y] => destruct (Z.ltb_spec x y)
         end; try done; try lia; rewrite ?Z.leb_le; lia.
Qed.

Lemma time_of_us_valid (u : Z) :
  0 <= u < us_per_day -> valid_time (time_of_us u).
Proof.
  unfold us_per_day, valid_time, time_of_us; simpl. intros Hu.
  repeat split;
    try (apply Z.mod_pos_bound; lia);
    try (apply Z.div_pos; lia).
  apply Z.div_lt_upper_bound; lia.
Qed.

Lemma us_of_time_of_us (u : Z) : us_of_time (time_of_us u) = u.
Proof.
  unfold us_of_time, time_of_us; simpl.
  pose proof (Z.div_mod u 1000000 ltac:(lia)) as H1.
  pose proof (Z.div_mod (u / 1000000) 60 ltac:(lia)) as H2.
  pose proof (Z.div_mod (u / 60000000) 60 ltac:(lia)) as H3.
  replace (u / 60000000) with (u / 1000000 / 60) in *
    by (rewrite Z.div_div by lia; done).
  replace (u / 3600000000) with (u / 1000000 / 60 / 60)
    by (rewrite !Z.div_div by lia; done).
  lia.
Qed.

Lemma minus_minutes_valid (t : time) (n : Z) : valid_time (minus_minutes t n).
Proof.
  apply time_of_us_valid. apply Z.mod_pos_bound. unfold us_per_day. lia.
Qed.

Lemma us_minus_minutes (t : time) (n : Z) :
  us_of_time (minus_minutes t n)
  = (us_of_time t - n * 60000000) mod us_per_day.
Proof. apply us_of_time_of_us. Qed.


(** The window test of the source, in microseconds since midnight. *)
Lemma in_window_us (deadline now : time) :
  valid_time deadline -> valid_time now ->
  in_window deadline now = true <->
  (us_of_time deadline - 300000000) mod us_per_day <= us_of_time now
  /\ us_of_time now <= us_of_time deadline.
Proof.
  intros Hd Hn. unfold in_window.
  rewrite andb_true_iff, !time_le_us
    by auto using minus_minutes_valid.
  rewrite us_minus_minutes, !Z.leb_le. done.
Qed.

(** From 00:05:00 on, the window is the interval of the five minutes
    before the deadline. *)
Lemma in_window_late (deadline now : time) :
  valid_time deadline -> valid_time now ->
  300000000 <= us_of_time deadline ->
  in_window deadline now = true <->
  us_of_time deadline - 300000000 <= us_of_time now <= us_of_time deadline.
Proof.
  intros Hd Hn Hlate. rewrite in_window_us by done.
  pose proof (us_of_time_range _ Hd).
  rewrite Z.mod_small by lia. done.
Qed.

(** Before 00:05:00 the window start falls on the evening before, at or
    after 23:55:00, and no time of day is in the window. *)
Lemma in_window_early (deadline now : time) :
  valid_time deadline ->
  us_of_time deadline < 300000000 ->
  us_of_time (minus_minutes deadline 5)
    = us_of_time deadline + us_per_day - 300000000
  /\ time_le (mk_time 23 55 0 0) (minus_minutes deadline 5) = true
  /\ in_window deadline now = false.
Proof.
  intros Hd Hearly. pose proof (us_of_time_range _ Hd) as Hr.
  assert (Hus : us_of_time (minus_minutes deadline 5)
                = us_of_time deadline + us_per_day - 300000000).
  { rewrite us_minus_minutes.
    replace (us_of_time deadline - 5 * 60000000)
      with (us_of_time deadline + us_per_day - 300000000 + (-1) * us_per_day)
      by lia.
    rewrite Z.mod_add by (unfold us_per_day; lia).
    apply Z.mod_small. unfold us_per_day in *. lia. }
  split; [done|]. split.
  - rewrite time_le_us; [|unfold valid_time; simpl; lia|apply minus_minutes_valid].
    apply Z.leb_le. rewrite Hus. unfold us_of_time at 1; simpl.
    unfold us_per_day. lia.
  - unfold in_window. apply not_true_is_false. intros Hw.
    apply andb_true_iff in Hw as [H1 H2].
    pose proof (time_le_trans _ _ _ H1 H2) as H3.
    rewrite time_le_us in H3 by auto using minus_minutes_valid.
    apply Z.leb_le in H3. rewrite Hus in H3. unfold us_per_day in *. lia.
Qed.

(** ** [strptime] *)

Lemma digit_val_range (c : ascii) : is_digit c = true -> 0 <= digit_val c <= 9.
Proof.
  unfold is_digit, digit_val. rewrite andb_true_iff.
  intros [H1 H2]. apply Nat.leb_le in H1, H2. lia.
Qed.

Lemma re_two_range lo1 hi1 lo2 hi2 s v r :
  (v, r) ∈ re_two lo1 hi1 lo2 hi2 s ->
  10 * lo1 + lo2 <= v <= 10 * hi1 + hi2.
Proof.
  unfold re_two. destruct s as [|c1 [|c2 s]]; try (by intros ?%elem_of_nil).
  destruct (in_class lo1 hi1 c1 && in_class lo2 hi2 c2) eqn:Hc;
    [|by intros ?%elem_of_nil].
  intros Hin%list_elem_of_singleton. injection Hin as -> ->.
  unfold in_class in Hc. rewrite !andb_true_iff, !Z.leb_le in Hc. lia.
Qed.

Lemma re_one_range s v r : (v, r) ∈ re_one s -> 0 <= v <= 9.
Proof.
  unfold re_one. destruct s as [|c s]; [by intros ?%elem_of_nil|].
  destruct (is_digit c) eqn:Hc; [|by intros ?%elem_of_nil].
  intros Hin%list_elem_of_singleton. injection Hin as -> ->.
  by apply digit_val_range.
Qed.

Lemma re_H_range s v r : (v, r) ∈ re_H s -> 0 <= v <= 23.
Proof.
  unfold re_H. rewrite !elem_of_app.
  intros [H|[H|H]];
    [apply re_two_range in H|apply re_two_range in H|apply re_one_range in H];
    lia.
Qed.

Lemma re_M_range s v r : (v, r) ∈ re_M s -> 0 <= v <= 59.
Proof.
  unfold re_M. rewrite !elem_of_app.
  intros [H|H]; [apply re_two_range in H|apply re_one_range in H]; lia.
Qed.

Lemma re_S_range s v r : (v, r) ∈ re_S s -> 0 <= v <= 61.
Proof.
  unfold re_S. rewrite !elem_of_app.
  intros [H|[H|H]];
    [apply re_two_range in H|apply re_two_range in H|apply re_one_range in H];
    lia.
Qed.

Lemma re_HMS_range s h m sec r :
  (h, m, sec, r) ∈ re_HMS s -> 0 <= h <= 23 /\ 0 <= m <= 59 /\ 0 <= sec <= 61.
Proof.
  unfold re_HMS. intros Hin.
  apply list_elem_of_bind in Hin as ([h' r1] & Hin & HH).
  apply list_elem_of_bind in Hin as (r2 & Hin & _).
  apply list_elem_of_bind in Hin as ([m' r3] & Hin & HM).
  apply list_elem_of_bind in Hin as (r4 & Hin & _).
  apply list_elem_of_bind in Hin as ([s' r5] & Hin & HS).
  apply list_elem_of_singleton in Hin. injection Hin as -> -> -> ->.
  apply re_H_range in HH. apply re_M_range in HM. apply re_S_range in HS. lia.
Qed.

(** What [strptime] returns is a time of day with no microseconds. *)
Lemma strptime_HMS_valid (s : string) (d : time) :
  strptime_HMS s = Some d -> valid_time d /\ microsecond d = 0.
Proof.
  unfold strptime_HMS.
  destruct (re_HMS s) as [|[[[h m] sec] rest] l] eqn:Hre; [done|].
  destruct (String.eqb rest "" && (sec <=? 59)) eqn:Hc; [|done].
  intros [= <-]. apply andb_true_iff in Hc as [_ Hsec%Z.leb_le].
  assert (Hin : (h, m, sec, rest) ∈ re_HMS s) by (rewrite Hre; left).
  apply re_HMS_range in Hin. unfold valid_time; simpl. lia.
Qed.

(** ** Running computations of [M] *)

Lemma bind_ok {A B} (m : M A) (f : A -> M B) (st st' : state) (a : A) :
  m st = (Ok a, st') -> (m ≫= f) st = f a st'.
Proof. unfold mbind, M_bind. by intros ->. Qed.

Lemma bind_raise {A B} (m : M A) (f : A -> M B) (st st' : state) (e : exn) :
  m st = (Raise e, st') -> (m ≫= f) st = (Raise e, st').
Proof. unfold mbind, M_bind. by intros ->. Qed.

Lemma bind_inv_ok {A B} (m : M A) (f : A -> M B) (st st2 : state) (b : B) :
  (m ≫= f) st = (Ok b, st2) ->
  exists a st1, m st = (Ok a, st1) /\ f a st1 = (Ok b, st2).
Proof.
  unfold mbind, M_bind. destruct (m st) as [[a|e] st1]; [eauto|done].
Qed.

Lemma logged_nil (st : state) : logged [] 0 st = st.
Proof.
  destruct st. unfold logged; simpl. by rewrite app_nil_r, Nat.add_0_r.
Qed.

Lemma logged_logged msgs1 n1 msgs2 n2 st :
  logged msgs2 n2 (logged msgs1 n1 st) = logged (msgs1 ++ msgs2) (n1 + n2) st.
Proof.
  unfold logged; simpl. by rewrite app_assoc, Nat.add_assoc.
Qed.

Lemma quiet_ret {A} (a : A) : quiet (mret a : M A).
Proof. by intros st. Qed.

Lemma quiet_raise {A} (e : exn) : quiet (raise e : M A).
Proof. by intros st. Qed.

Lemma quiet_lift {A} (r : result A) : quiet (lift r).
Proof. by intros st. Qed.

Lemma quiet_logger (m : message) : quiet (logger m).
Proof. by intros st. Qed.

Lemma quiet_call {A} (f : nat -> result A) : quiet (call f).
Proof. by intros st. Qed.

Lemma quiet_bind {A B} (m : M A) (f : A -> M B) :
  quiet m -> (forall a, quiet (f a)) -> quiet (m ≫= f).
Proof.
  intros Hm Hf st. specialize (Hm st). unfold mbind, M_bind.
  destruct (m st) as [[a|e] st1]; simpl in *; [|done].
  destruct (Hf a st1) as [H1 H2]. destruct Hm as [H3 H4].
  by rewrite H1, H2.
Qed.

Lemma quiet_try {A} (body : M A) (handler : exn -> M A) :
  quiet body -> (forall e, quiet (handler e)) -> quiet (try_except body handler).
Proof.
  intros Hm Hf st. specialize (Hm st). unfold try_except.
  destruct (body st) as [[a|e] st1]; simpl in *; [done|].
  destruct (is_Exception e); [|done].
  destruct (Hf e st1) as [H1 H2]. destruct Hm as [H3 H4].
  by rewrite H1, H2.
Qed.

Lemma quiet_for_each {A S} (body : A -> S -> M S) (l : list A) (acc : S) :
  (forall x a, quiet (body x a)) -> quiet (for_each body l acc).
Proof.
  intros Hb. revert acc. induction l as [|x l IH]; intros acc; simpl.
  - apply quiet_ret.
  - apply quiet_bind; auto.
Qed.

Create HintDb quiet.
#[export] Hint Resolve quiet_ret quiet_raise quiet_lift quiet_logger quiet_call
  quiet_bind quiet_try quiet_for_each : quiet.

Lemma quiet_parse_time (t : pyval) : quiet (parse_time t).
Proof.
  destruct t; simpl; auto with quiet.
  destruct (strptime_HMS s); auto with quiet.
Qed.
#[export] Hint Resolve quiet_parse_time : quiet.

Lemma quiet_window_block lesson students now a acc :
  quiet (window_block lesson students now a acc).
Proof.
  unfold window_block.
  destruct (truthy _); auto with quiet.
  apply quiet_bind; [auto with quiet|]. intros v.
  apply quiet_bind; [auto with quiet|]. intros [d|]; [|auto with quiet].
  destruct (in_window d now); auto 10 with quiet.
Qed.
#[export] Hint Resolve quiet_window_block : quiet.

Lemma quiet_lesson_body env gid now today lesson acc :
  quiet (lesson_body env gid now today lesson acc).
Proof.
  unfold lesson_body.
  destruct (negb _); [auto with quiet|].
  apply quiet_bind; [auto with quiet|]. intros d.
  destruct (negb _); [auto with quiet|].
  destruct gid as [g|]; [|auto with quiet].
  apply quiet_bind; [auto with quiet|]. intros [|x students]; [auto with quiet|].
  apply quiet_bind; [auto with quiet|]. intros [acc1|]; [|auto with quiet].
  apply quiet_bind; [auto with quiet|]. intros [acc2|]; auto with quiet.
Qed.
#[export] Hint Resolve quiet_lesson_body : quiet.

Lemma quiet_get_lessons_to_check env gid schedule_data current_time :
  quiet (get_lessons_to_check env gid schedule_data current_time).
Proof. unfold get_lessons_to_check. auto 10 with quiet. Qed.
#[export] Hint Resolve quiet_get_lessons_to_check : quiet.

(** ** What [get_lessons_to_check] can return *)

Lemma eq_str_true (v : pyval) (lit : string) :
  eq_str v lit = true <-> v = PStr lit.
Proof.
  destruct v; simpl; try (split; [done|intros [=]]).
  rewrite String.eqb_eq. split; [by intros ->|by intros [= ->]].
Qed.

Lemma isoformat_nonempty (d : date) : isoformat d <> "".
Proof. done. Qed.

Lemma status_active (lesson : dict) :
  eq_str (dict_get lesson "scheduleStatus") "ACTIVE" = true <->
  lesson !! "scheduleStatus" = Some (PStr "ACTIVE").
Proof.
  rewrite eq_str_true. unfold dict_get.
  destruct (lesson !! "scheduleStatus") as [v|]; simpl;
    split; congruence.
Qed.

Lemma date_prefix_ok (lesson : dict) (p : string) :
  p <> "" ->
  schedule_date_prefix lesson = Ok p <->
  exists s, lesson !! "scheduleDate" = Some (PStr s) /\ str_prefix 10 s = p.
Proof.
  intros Hp. unfold schedule_date_prefix.
  destruct (lesson !! "scheduleDate") as [[| | |s]|]; split;
    try done; try (by intros (s' & [=] & _)).
  - intros [= <-]. eauto.
  - by intros (s' & [= <-] & ->).
  - by intros [= <-].
Qed.

Lemma in_window_closed (d now : time) :
  valid_time d -> valid_time now ->
  in_window d now = true <-> in_closed_window d now.
Proof.
  intros Hd Hn. rewrite in_window_us by done. unfold in_closed_window.
  by rewrite us_minus_minutes.
Qed.

Lemma parse_time_inv (v : pyval) (st st' : state) (r : option time) :
  parse_time v st = (Ok r, st') ->
  exists s, v = PStr s /\ strptime_HMS s = r.
Proof.
  destruct v as [| | |s]; try done. simpl.
  destruct (strptime_HMS s) as [d|] eqn:Hs; intros [= <- _]; eauto.
Qed.

(** A block leaves the list alone or appends its one task, and it
    appends only with a falsy flag and inside the window. *)
Lemma window_block_inv lesson students now a acc st r st' :
  window_block lesson students now a acc st = (Ok r, st') ->
  r = None \/ r = Some acc
  \/ (r = Some (acc ++ [mk_task lesson a students])
      /\ truthy (dict_get lesson (flag_key a)) = false
      /\ exists d, deadline lesson a = Some d /\ in_window d now = true).
Proof.
  unfold window_block.
  destruct (truthy (dict_get lesson (flag_key a))) eqn:Hflag.
  { intros [= <- _]. auto. }
  intros H. apply bind_inv_ok in H as (v & st1 & Hget & H).
  apply bind_inv_ok in H as (parsed & st2 & Hparse & H).
  apply parse_time_inv in Hparse as (s & -> & Hs).
  unfold lift, getitem in Hget.
  destruct (lesson !! end_key a) as [v|] eqn:Hend; [|done].
  injection Hget as -> <-.
  destruct parsed as [d|]; [|injection H as <- _; auto].
  destruct (in_window d now) eqn:Hw; [|injection H as <- _; auto].
  apply bind_inv_ok in H as (name & st3 & _ & H).
  apply bind_inv_ok in H as (? & st4 & _ & H).
  injection H as <- _. right; right. split; [done|]. split; [done|].
  exists d. unfold deadline. by rewrite Hend.
Qed.

Section Soundness.

Variable env : collaborators.

Lemma lesson_body_inv gid now today_str lesson acc st acc' st' :
  today_str <> "" ->
  lesson_body env gid now today_str lesson acc st = (Ok acc', st') ->
  exists new, acc' = acc ++ new /\ Forall (justified now today_str) new.
Proof.
  intros Hne. unfold lesson_body.
  destruct (eq_str (dict_get lesson "scheduleStatus") "ACTIVE") eqn:Hst;
    simpl; [|intros [= <- _]; exists []; by rewrite app_nil_r].
  apply status_active in Hst.
  intros H. apply bind_inv_ok in H as (p & st1 & Hp & H).
  unfold lift in Hp. injection Hp as Hp <-.
  destruct (String.eqb p today_str) eqn:Hd; simpl in H;
    [|injection H as <- _; exists []; by rewrite app_nil_r].
  apply String.eqb_eq in Hd as ->.
  apply date_prefix_ok in Hp; [|done].
  assert (He : eligible today_str lesson) by (by split).
  destruct gid as [g|];
    [|apply bind_inv_ok in H as (? & ? & _ & [= <- _]);
      exists []; by rewrite app_nil_r].
  apply bind_inv_ok in H as (students & st2 & _ & H).
  destruct students as [|u students];
    [apply bind_inv_ok in H as (? & ? & _ & [= <- _]);
     exists []; by rewrite app_nil_r|].
  apply bind_inv_ok in H as (r1 & st3 & H1 & H).
  apply window_block_inv in H1.
  assert (Hj : forall a,
    truthy (dict_get lesson (flag_key a)) = false ->
    (exists d, deadline lesson a = Some d /\ in_window d now = true) ->
    justified now today_str (mk_task lesson a (u :: students))).
  { intros a Hf Hw. by repeat split. }
  destruct H1 as [->|[->|(-> & Hf1 & Hw1)]].
  - injection H as <- _. exists []; by rewrite app_nil_r.
  - apply bind_inv_ok in H as (r2 & st4 & H2 & H).
    apply window_block_inv in H2.
    destruct H2 as [->|[->|(-> & Hf2 & Hw2)]]; injection H as <- _.
    + exists []; by rewrite app_nil_r.
    + exists []; by rewrite app_nil_r.
    + eexists; split; [done|]. repeat constructor; auto.
  - apply bind_inv_ok in H as (r2 & st4 & H2 & H).
    apply window_block_inv in H2.
    destruct H2 as [->|[->|(-> & Hf2 & Hw2)]]; injection H as <- _.
    + eexists; split; [done|]. repeat constructor; auto.
    + eexists; split; [done|]. repeat constructor; auto.
    + rewrite <- app_assoc. eexists; split; [done|].
      repeat constructor; auto.
Qed.

Lemma for_each_lesson_body_inv gid now today_str schedule acc st r st' :
  today_str <> "" ->
  Forall (justified now today_str) acc ->
  for_each (lesson_body env gid now today_str) schedule acc st
    = (Ok r, st') ->
  Forall (justified now today_str) r.
Proof.
  intros Hne. revert acc st.
  induction schedule as [|lesson schedule IH]; intros acc st Hacc; simpl.
  - by intros [= <- _].
  - intros H. apply bind_inv_ok in H as (acc1 & st1 & Hb & H).
    apply lesson_body_inv in Hb as (new & -> & Hnew); [|done].
    eapply IH; [|exact H]. by apply Forall_app.
Qed.

Lemma get_lessons_to_check_sound gid schedule current_time st :
  Forall (fun t => exists y,
            minus_one_day (dt_date current_time) = Ok y
            /\ justified (dt_time current_time) (isoformat y) t)
    (produced (get_lessons_to_check env gid schedule
                 current_time st)).
Proof.
  unfold produced, get_lessons_to_check.
  destruct (minus_one_day (dt_date current_time)) as [y|e] eqn:Hy.
  - erewrite bind_ok by done.
    destruct (for_each _ _ _ _) as [[r|e] st'] eqn:Hf; simpl; [|done].
    eapply for_each_lesson_body_inv in Hf; [|done..].
    eapply Forall_impl; [exact Hf|]. eauto.
  - by erewrite bind_raise by done.
Qed.

End Soundness.

(** ** The calendar *)

Example minus_one_day_in_month :
  isoformat <$> [mk_date 2024 3 5; mk_date 2024 3 1; mk_date 2023 3 1;
                 mk_date 2024 1 1; mk_date 1900 3 1; mk_date 2000 3 1]
  = ["2024-03-05"; "2024-03-01"; "2023-03-01"; "2024-01-01"; "1900-03-01";
     "2000-03-01"]
  /\ minus_one_day <$> [mk_date 2024 3 5; mk_date 2024 3 1; mk_date 2023 3 1;
                        mk_date 2024 1 1; mk_date 1900 3 1; mk_date 2000 3 1;
                        mk_date 1 1 1]
     = [Ok (mk_date 2024 3 4); Ok (mk_date 2024 2 29); Ok (mk_date 2023 2 28);
        Ok (mk_date 2023 12 31); Ok (mk_date 1900 2 28);
        Ok (mk_date 2000 2 29); Raise OverflowError].
Proof. split; reflexivity. Qed.

(** The day before a valid date is a valid date. *)
Lemma minus_one_day_valid (d y : date) :
  valid_date d -> minus_one_day d = Ok y -> valid_date y.
Proof.
  unfold valid_date, minus_one_day. intros (Hy & Hm & Hd).
  destruct (Z.ltb_spec 1 (day d)); [intros [= <-]; simpl; lia|].
  destruct (Z.ltb_spec 1 (month d)).
  - intros [= <-]; simpl. split; [lia|]. split; [lia|].
    unfold days_in_month.
    repeat match goal with |- context [if ?b then _ else _] => destruct b end;
      lia.
  - destruct (Z.ltb_spec 1 (year d)); [|done].
    intros [= <-]; simpl. unfold days_in_month; simpl. lia.
Qed.

Lemma days_before_month_succ (y m : Z) :
  1 <= m < 12 ->
  days_before_month y (m + 1) = days_before_month y m + days_in_month y m.
Proof.
  intros Hm.
  assert (m = 1 \/ m = 2 \/ m = 3 \/ m = 4 \/ m = 5 \/ m = 6 \/ m = 7
          \/ m = 8 \/ m = 9 \/ m = 10 \/ m = 11) as Hcases by lia.
  unfold days_before_month, days_in_month.
  repeat destruct Hcases as [-> | Hcases]; try subst m; simpl;
    destruct (is_leap y); reflexivity.
Qed.

Lemma days_before_year_succ (y : Z) :
  1 <= y ->
  days_before_year (y + 1)
  = days_before_year y + 365 + (if is_leap y then 1 else 0).
Proof.
  intros Hy. unfold days_before_year, is_leap.
  replace (y + 1 - 1) with y by lia.
  destruct (Z.eqb_spec (y mod 4) 0), (Z.eqb_spec (y mod 100) 0),
    (Z.eqb_spec (y mod 400) 0); simpl;
    Z.div_mod_to_equations; lia.
Qed.

(** [minus_one_day] is the subtraction of one from the ordinal, which is
    how [date.__sub__] computes [d - timedelta(days=1)]. *)
Lemma minus_one_day_toordinal (d y : date) :
  valid_date d -> minus_one_day d = Ok y -> toordinal y = toordinal d - 1.
Proof.
  unfold valid_date, minus_one_day, toordinal. intros (Hy & Hm & Hd).
  destruct (Z.ltb_spec 1 (day d)); [intros [= <-]; simpl; lia|].
  destruct (Z.ltb_spec 1 (month d)).
  - intros [= <-]; simpl.
    pose proof (days_before_month_succ (year d) (month d - 1) ltac:(lia))
      as Hsucc.
    replace (month d - 1 + 1) with (month d) in Hsucc by lia. lia.
  - destruct (Z.ltb_spec 1 (year d)); [|done].
    intros [= <-]; simpl.
    pose proof (days_before_year_succ (year d - 1) ltac:(lia)) as Hsucc.
    replace (year d - 1 + 1) with (year d) in Hsucc by lia.
    replace (month d) with 1 by lia.
    unfold days_before_month in *; simpl.
    destruct (is_leap (year d - 1)); simpl; lia.
Qed.

(** Only [date.min] has no day before it. *)
Lemma minus_one_day_overflow (d : date) :
  valid_date d ->
  minus_one_day d = Raise OverflowError <-> d = mk_date 1 1 1.
Proof.
  unfold valid_date, minus_one_day. intros (Hy & Hm & Hd).
  destruct d as [y m dd]; simpl in *.
  destruct (Z.ltb_spec 1 dd); [split; [done|intros [=]; lia]|].
  destruct (Z.ltb_spec 1 m); [split; [done|intros [=]; lia]|].
  destruct (Z.ltb_spec 1 y); [split; [done|intros [=]; lia]|].
  split; [intros _; f_equal; lia|done].
Qed.

(** ** C5 *)

(** C5: every task that [get_lessons_to_check] produces, for every
    schedule list, group, timestamp and state, is for a lesson whose
    [scheduleStatus] is ["ACTIVE"] and whose [scheduleDate], cut to its
    first 10 characters, is the ISO date of the day before the date of
    [current_time]; so no task is produced for any other lesson. *)
Theorem get_lessons_to_check_only_active_yesterday
    (env : collaborators) (group_id : option Z)
    (schedule_data : list dict) (current_time : datetime) (st : state) :
  Forall (fun t =>
            task_lesson t !! "scheduleStatus" = Some (PStr "ACTIVE")
            /\ exists s y,
                 task_lesson t !! "scheduleDate" = Some (PStr s)
                 /\ minus_one_day (dt_date current_time) = Ok y
                 /\ str_prefix 10 s = isoformat y)
    (produced (get_lessons_to_check env group_id schedule_data
                 current_time st)).
Proof.
  eapply Forall_impl; [apply get_lessons_to_check_sound|].
  intros t (y & Hy & (Hact & s & Hs & Hp) & _). split; [done|].
  by exists s, y.
Qed.

(** ** C9 *)

Lemma deadline_valid (lesson : dict) (a : action) (d : time) :
  deadline lesson a = Some d -> valid_time d.
Proof.
  unfold deadline. destruct (lesson !! end_key a) as [[| | |s]|]; try done.
  intros H. by apply strptime_HMS_valid in H as [? _].
Qed.

(** C9: when the parsed deadline of a block is earlier than 00:05:00,
    the window start is the time of day five minutes earlier on the
    evening before, at or after 23:55:00; the test
    [window_start <= now <= deadline] fails for every [now]; and no call
    of [get_lessons_to_check], at any time and in any schedule, produces
    the task of that block for that lesson. *)
Theorem early_deadline_never_checked (lesson : dict) (a : action) (d : time) :
  deadline lesson a = Some d ->
  us_of_time d < us_of_time (mk_time 0 5 0 0) ->
  us_of_time (minus_minutes d 5) = us_of_time d + us_per_day - 300000000
  /\ time_le (mk_time 23 55 0 0) (minus_minutes d 5) = true
  /\ (forall now, in_window d now = false)
  /\ (forall env group_id schedule_data current_time st students,
        mk_task lesson a students
          ∉ produced (get_lessons_to_check env group_id
                        schedule_data current_time st)).
Proof.
  intros Hd Hearly. pose proof (deadline_valid _ _ _ Hd) as Hv.
  change (us_of_time (mk_time 0 5 0 0)) with 300000000 in Hearly.
  split; [by apply (in_window_early d d)|].
  split; [by apply (in_window_early d d)|].
  split; [intros now; by apply in_window_early|].
  intros env gid schedule ct st students Hin.
  pose proof (get_lessons_to_check_sound env gid schedule ct st) as Hs.
  rewrite Forall_forall in Hs.
  destruct (Hs _ Hin) as (y & _ & _ & _ & _ & d' & Hd' & Hw); simpl in *.
  rewrite Hd in Hd'. injection Hd' as <-.
  by rewrite (proj2 (proj2 (in_window_early d (dt_time ct) Hv Hearly))) in Hw.
Qed.

(** ** Running the loop body on a readable lesson *)

Lemma window_block_run lesson students now a acc st :
  block_readable lesson now a ->
  exists st',
    window_block lesson students now a acc st
    = (Ok (block_outcome lesson students now a acc), st').
Proof.
  intros Hread. unfold window_block, block_outcome, deadline.
  destruct (truthy (dict_get lesson (flag_key a))) eqn:Hflag; [by eexists|].
  destruct (Hread Hflag) as (s & Hs & Hname).
  unfold mbind, M_bind, lift, getitem. rewrite Hs. simpl.
  destruct (strptime_HMS s) as [d|] eqn:Hd; simpl; [|by eexists].
  destruct (in_window d now) eqn:Hw; [|by eexists].
  destruct (Hname d eq_refl Hw) as [name ->]. by eexists.
Qed.

(** A block that returns found what it read. *)
Lemma window_block_ok_readable lesson students now a acc st r st' :
  window_block lesson students now a acc st = (Ok r, st') ->
  block_readable lesson now a.
Proof.
  intros H Hflag. unfold window_block in H. rewrite Hflag in H.
  apply bind_inv_ok in H as (v & st1 & Hget & H).
  apply bind_inv_ok in H as (parsed & st2 & Hparse & H).
  apply parse_time_inv in Hparse as (s & -> & Hs).
  unfold lift, getitem in Hget.
  destruct (lesson !! end_key a) as [v|] eqn:Hend; [|done].
  injection Hget as -> <-. exists s. split; [done|].
  intros d Hd Hw. subst parsed. rewrite Hd, Hw in H.
  apply bind_inv_ok in H as (name & st3 & Hname & _).
  unfold lift, getitem in Hname.
  by destruct (lesson !! "moduleName").
Qed.

Lemma block_outcome_entry_reached lesson students now acc acc1 :
  block_outcome lesson students now Entry acc = Some acc1 ->
  exit_reached lesson.
Proof.
  unfold block_outcome, exit_reached. change (flag_key Entry) with "checkIn".
  destruct (truthy (dict_get lesson "checkIn")); [by left|].
  destruct (deadline lesson Entry); [right; eauto|done].
Qed.

Lemma block_outcome_entry_skipped lesson students now acc :
  block_outcome lesson students now Entry acc = None ->
  ~ exit_reached lesson.
Proof.
  unfold block_outcome, exit_reached. change (flag_key Entry) with "checkIn".
  destruct (truthy (dict_get lesson "checkIn")); [done|].
  destruct (deadline lesson Entry) as [d|];
    [by destruct (in_window d now)|].
  intros _ [?|[? ?]]; done.
Qed.

Lemma lesson_body_run env gid now today_str lesson acc st students :
  eligible today_str lesson ->
  readable now lesson ->
  get_students_by_group_with_digest env (clock st) gid = Ok students ->
  students <> [] ->
  exists st',
    lesson_body env (Some gid) now today_str lesson acc st
    = (Ok (body_outcome lesson students now acc), st').
Proof.
  intros [Hact (s & Hs & Hp)] [HrE HrX] Hst Hne.
  unfold lesson_body, body_outcome.
  rewrite (proj2 (status_active lesson) Hact). simpl.
  unfold schedule_date_prefix. rewrite Hs, Hp.
  unfold mbind at 1, M_bind at 1, lift at 1.
  rewrite String.eqb_refl. simpl.
  unfold mbind at 1, M_bind at 1, call at 1. rewrite Hst.
  destruct students as [|u students]; [done|].
  match goal with
  | |- context [(_ ≫= _) ?st1] =>
      destruct (window_block_run lesson (u :: students) now Entry acc st1
                  HrE) as [st2 H1]
  end.
  erewrite bind_ok by exact H1.
  destruct (block_outcome lesson (u :: students) now Entry acc) as [acc1|]
    eqn:HoE; [|by eexists].
  apply block_outcome_entry_reached in HoE.
  destruct (window_block_run lesson (u :: students) now Exit acc1 st2
              (HrX HoE)) as [st3 H2].
  erewrite bind_ok by exact H2.
  destruct (block_outcome lesson (u :: students) now Exit acc1); by eexists.
Qed.

(** [readable] is what the loop body needs, and no more: on an eligible
    lesson of a group with students the body returns exactly when the
    record is readable at [now]. *)
Lemma lesson_body_returns_iff_readable env gid now today_str lesson acc st
    students :
  eligible today_str lesson ->
  get_students_by_group_with_digest env (clock st) gid = Ok students ->
  students <> [] ->
  (exists acc' st',
     lesson_body env (Some gid) now today_str lesson acc st = (Ok acc', st'))
  <-> readable now lesson.
Proof.
  intros He Hst Hne. split.
  2:{ intros Hr.
      destruct (lesson_body_run env gid now today_str lesson acc st students
                  He Hr Hst Hne) as [st' H].
      eauto. }
  destruct He as [Hact (s & Hs & Hp)]. intros (acc' & st' & H).
  unfold lesson_body in H.
  rewrite (proj2 (status_active lesson) Hact) in H. simpl in H.
  unfold schedule_date_prefix in H. rewrite Hs, Hp in H.
  unfold mbind at 1, M_bind at 1, lift at 1 in H.
  rewrite String.eqb_refl in H. simpl in H.
  unfold mbind at 1, M_bind at 1, call at 1 in H. rewrite Hst in H.
  destruct students as [|u students]; [done|].
  apply bind_inv_ok in H as (r1 & st1 & H1 & H).
  pose proof (window_block_ok_readable _ _ _ _ _ _ _ _ H1) as HrE.
  split; [exact HrE|]. intros Hreach.
  match type of H1 with
  | _ ?st0 = _ =>
      destruct (window_block_run lesson (u :: students) now Entry acc st0
                  HrE) as [st1' H1']
  end.
  rewrite H1 in H1'. injection H1' as -> _.
  destruct (block_outcome lesson (u :: students) now Entry acc) as [acc1|]
    eqn:HoE.
  - apply bind_inv_ok in H as (r2 & st2 & H2 & _).
    by eapply window_block_ok_readable.
  - by apply block_outcome_entry_skipped in HoE.
Qed.




(** ** One minute outside a window *)




(** ** The tasks of one lesson *)





(** ** Running the loop on a schedule of processable lessons *)

Lemma passed_over_not_eligible (today_str : string) (lesson : dict) :
  passed_over today_str lesson -> ~ eligible today_str lesson.
Proof.
  intros [Hst | (p & Hp & Hne)] [Hact (s & Hs & Hpre)]; [done|].
  unfold schedule_date_prefix in Hp. rewrite Hs in Hp. congruence.
Qed.

Lemma lesson_body_passed_over env gid now today_str lesson acc st :
  passed_over today_str lesson ->
  lesson_body env gid now today_str lesson acc st = (Ok acc, st).
Proof.
  intros Hpass. unfold lesson_body.
  destruct (eq_str (dict_get lesson "scheduleStatus") "ACTIVE") eqn:Hst;
    simpl; [|done].
  apply status_active in Hst.
  destruct Hpass as [?|(p & Hp & Hne)]; [done|].
  rewrite Hp. unfold mbind, M_bind, lift.
  apply String.eqb_neq in Hne. by rewrite Hne.
Qed.





(** ** The window of the code and the five minutes before a deadline *)




(** ** C1 *)




(** ** C4 *)





Lemma early_deadline_never_checked_witness :
  us_of_time (minus_minutes (mk_time 0 3 0 0) 5)
  = us_of_time (mk_time 0 3 0 0) + us_per_day - 300000000
  /\ time_le (mk_time 23 55 0 0) (minus_minutes (mk_time 0 3 0 0) 5) = true
  /\ (forall now, in_window (mk_time 0 3 0 0) now = false)
  /\ (forall env group_id schedule_data current_time st students,
        mk_task midnight_lesson Entry students
          ∉ produced (get_lessons_to_check env group_id
                        schedule_data current_time st)).
Proof.
  apply (early_deadline_never_checked midnight_lesson Entry (mk_time 0 3 0 0)).
  - reflexivity.
  - reflexivity.
Defined.

(** ** States along the life of the process *)

Lemma extends_refl (st : state) : extends st st.
Proof. exists []. rewrite app_nil_r. auto. Qed.

Lemma extends_trans (st1 st2 st3 : state) :
  extends st1 st2 -> extends st2 st3 -> extends st1 st3.
Proof.
  intros (n1 & Hs1 & Hsub1 & Hk1) (n2 & Hs2 & Hsub2 & Hk2).
  exists (n1 ++ n2). split; [by rewrite Hs2, Hs1, app_assoc|].
  split; [set_solver|]. intros k Hk.
  destruct (Hk2 k Hk) as [Hk'|[text Ht]].
  - destruct (Hk1 k Hk') as [?|[text Ht]]; [by left|].
    right. exists text. apply elem_of_app. by left.
  - right. exists text. apply elem_of_app. by right.
Qed.

Lemma extends_quiet (st st' : state) :
  notified_set st' = notified_set st -> sent st' = sent st -> extends st st'.
Proof.
  intros Hn Hs. exists []. rewrite app_nil_r, Hn. auto.
Qed.

Lemma forward_quiet {A} (m : M A) : quiet m -> forward m.
Proof. intros H st. destruct (H st). by apply extends_quiet. Qed.

Lemma forward_bind {A B} (m : M A) (f : A -> M B) :
  forward m -> (forall a, forward (f a)) -> forward (m ≫= f).
Proof.
  intros Hm Hf st. specialize (Hm st). unfold mbind, M_bind.
  destruct (m st) as [[a|e] st1]; simpl in *; [|done].
  eapply extends_trans; [exact Hm|apply Hf].
Qed.

Lemma forward_try {A} (body : M A) (handler : exn -> M A) :
  forward body -> (forall e, forward (handler e)) ->
  forward (try_except body handler).
Proof.
  intros Hm Hf st. specialize (Hm st). unfold try_except.
  destruct (body st) as [[a|e] st1]; simpl in *; [done|].
  destruct (is_Exception e); [|done].
  eapply extends_trans; [exact Hm|apply Hf].
Qed.

Lemma forward_for_each {A S} (body : A -> S -> M S) (l : list A) (acc : S) :
  (forall x a, forward (body x a)) -> forward (for_each body l acc).
Proof.
  intros Hb. revert acc. induction l as [|x l IH]; intros acc; simpl.
  - apply forward_quiet, quiet_ret.
  - apply forward_bind; auto.
Qed.

Lemma quiet_is_notified (k : key) : quiet (is_notified k).
Proof. by intros st. Qed.
#[export] Hint Resolve quiet_is_notified : quiet.

Create HintDb forward.
#[export] Hint Resolve forward_bind forward_try forward_for_each : forward.
#[export] Hint Extern 5 (forward _) =>
  apply forward_quiet; solve [auto 10 with quiet] : forward.

Section Cycle.

Variable env : collaborators.

Lemma quiet_random_choice (seq : list string) :
  quiet (random_choice env seq).
Proof. destruct seq; simpl; auto with quiet. Qed.

Lemma quiet_message_text lesson a user_id :
  quiet (message_text env lesson a user_id).
Proof.
  unfold message_text.
  pose proof quiet_random_choice. auto 20 with quiet.
Qed.

(** The three outcomes of the [try] statement: the message is
    delivered; the send raises an [Exception], which the handler logs; the
    send raises outside [Exception], which leaves the statement. *)
Lemma send_and_record_run (user_id : Z) (text : string) (k : key)
    (st : state) :
  send_and_record env user_id text k st
  = match bot_send_message env (clock st) user_id text with
    | Ok _ =>
        (Ok tt, mk_state ({[k]} ∪ notified_set st)
                  (log st ++ [MsgSent user_id text])
                  (sent st ++ [(user_id, text)]) (S (clock st)))
    | Raise e =>
        if is_Exception e
        then (Ok tt, mk_state (notified_set st)
                       (log st ++ [MsgSendFailed user_id e])
                       (sent st) (S (clock st)))
        else (Raise e, mk_state (notified_set st) (log st) (sent st)
                         (S (clock st)))
    end.
Proof.
  unfold send_and_record, try_except, mbind, M_bind, send_message.
  destruct (bot_send_message env (clock st) user_id text) as [[]|e];
    [done|].
  by destruct (is_Exception e).
Qed.

Lemma forward_send_and_record (user_id : Z) (text : string) (name : pyval)
    (a : action) :
  forward (send_and_record env user_id text (user_id, name, a)).
Proof.
  intros st. rewrite send_and_record_run.
  destruct (bot_send_message env (clock st) user_id text) as [[]|e]; simpl.
  - exists [(user_id, text)]. simpl. split; [done|].
    split; [set_solver|]. intros k [->%elem_of_singleton|?]%elem_of_union.
    + right. exists text. simpl. by left.
    + by left.
  - destruct (is_Exception e); by apply extends_quiet.
Qed.

Lemma forward_notify_student lesson a user_id :
  forward (notify_student env lesson a user_id).
Proof.
  unfold notify_student.
  pose proof quiet_message_text. pose proof forward_send_and_record.
  apply forward_bind; [auto with forward|]. intros name.
  apply forward_bind; [auto with forward|]. intros [|]; [auto with forward|].
  apply forward_bind; [auto with forward|]. auto.
Qed.

Lemma forward_process_task (entry : task) :
  forward (process_task env entry).
Proof.
  unfold process_task, for_each_.
  apply forward_for_each. intros. apply forward_notify_student.
Qed.

Lemma forward_process_group now item :
  forward (process_group env now item).
Proof.
  unfold process_group, for_each_.
  pose proof forward_process_task.
  apply forward_bind; [auto with forward|]. intros tasks.
  apply forward_bind; [auto with forward|]. intros _.
  apply forward_for_each. auto.
Qed.

Lemma forward_check_lesson_marks now today :
  forward (check_lesson_marks env now today).
Proof.
  unfold check_lesson_marks, for_each_.
  pose proof forward_process_group.
  apply forward_try; [|auto with forward].
  apply forward_bind; [auto with forward|]. intros _.
  apply forward_bind; [auto with forward|].
  intros [|item items]; [auto with forward|].
  apply forward_for_each. auto.
Qed.

Lemma run_cycles_extends fires st : extends st (run_cycles env fires st).
Proof.
  revert st. induction fires as [|fire fires IH]; intros st; simpl.
  - apply extends_refl.
  - eapply extends_trans; [apply forward_check_lesson_marks|apply IH].
Qed.

End Cycle.

(** ** The step of one student *)

Lemma notify_student_run (env : collaborators) (lesson : dict) (a : action)
    (user_id : Z) (name : pyval) (st : state) :
  lesson !! "moduleName" = Some name ->
  notify_student env lesson a user_id st
  = if bool_decide ((user_id, hash_norm name, a) ∈ notified_set st)
    then logger (MsgAlreadyNotified user_id name a) st
    else (text ← message_text env lesson a user_id;
          send_and_record env user_id text (user_id, hash_norm name, a)) st.
Proof.
  intros Hname. unfold notify_student, getitem. rewrite Hname.
  unfold mbind at 1, M_bind at 1, lift at 1.
  unfold mbind at 1, M_bind at 1, is_notified at 1.
  by destruct (bool_decide _).
Qed.

(** ** Messages and keys in balance *)

Section Keeps.

Variable R : state -> state -> Prop.
Hypothesis R_refl : forall st, R st st.
Hypothesis R_trans : forall s1 s2 s3, R s1 s2 -> R s2 s3 -> R s1 s3.

Lemma keeps_bind {A B} (m : M A) (f : A -> M B) :
  keeps R m -> (forall a, keeps R (f a)) -> keeps R (m ≫= f).
Proof.
  intros Hm Hf st. specialize (Hm st). unfold mbind, M_bind.
  destruct (m st) as [[a|e] st1]; simpl in *; [|done].
  eapply R_trans; [exact Hm|apply Hf].
Qed.

Lemma keeps_try {A} (body : M A) (handler : exn -> M A) :
  keeps R body -> (forall e, keeps R (handler e)) ->
  keeps R (try_except body handler).
Proof.
  intros Hm Hf st. specialize (Hm st). unfold try_except.
  destruct (body st) as [[a|e] st1]; simpl in *; [done|].
  destruct (is_Exception e); [|done].
  eapply R_trans; [exact Hm|apply Hf].
Qed.

Lemma keeps_for_each {A S} (body : A -> S -> M S) (l : list A) (acc : S) :
  (forall x a, keeps R (body x a)) -> keeps R (for_each body l acc).
Proof.
  intros Hb. revert acc. induction l as [|x l IH]; intros acc; simpl.
  - intros st. apply R_refl.
  - apply keeps_bind; auto.
Qed.

End Keeps.

Lemma same_balance_refl (st : state) : same_balance st st.
Proof. unfold same_balance. lia. Qed.

Lemma same_balance_trans (s1 s2 s3 : state) :
  same_balance s1 s2 -> same_balance s2 s3 -> same_balance s1 s3.
Proof. unfold same_balance. lia. Qed.

Lemma keeps_balance_quiet {A} (m : M A) : quiet m -> keeps same_balance m.
Proof.
  intros Hq st. destruct (Hq st) as [H1 H2]. unfold same_balance.
  rewrite H1, H2. lia.
Qed.

Lemma keeps_balance_notify_student (env : collaborators) (lesson : dict)
    (a : action) (user_id : Z) :
  keeps same_balance (notify_student env lesson a user_id).
Proof.
  intros st. destruct (lesson !! "moduleName") as [name|] eqn:Hname.
  2:{ unfold notify_student, getitem. rewrite Hname. apply same_balance_refl. }
  rewrite (notify_student_run _ _ _ _ _ _ Hname).
  case_bool_decide as Hin; [apply (keeps_balance_quiet _ (quiet_logger _))|].
  pose proof (quiet_message_text env lesson a user_id st) as [Hq1 Hq2].
  unfold mbind, M_bind.
  destruct (message_text env lesson a user_id st) as [[text|e] st1];
    simpl in *; [|unfold same_balance; rewrite Hq1, Hq2; lia].
  rewrite send_and_record_run.
  destruct (bot_send_message env (clock st1) user_id text) as [[]|e];
    [|destruct (is_Exception e)]; simpl;
    unfold same_balance; simpl; rewrite Hq1, Hq2; [|lia..].
  rewrite length_app, size_union, size_singleton; [simpl; lia|].
  by apply disjoint_singleton_l.
Qed.

Lemma keeps_balance_check_lesson_marks (env : collaborators) now today :
  keeps same_balance (check_lesson_marks env now today).
Proof.
  pose proof same_balance_refl as Hr. pose proof same_balance_trans as Ht.
  assert (Hq : forall A (m : M A), quiet m -> keeps same_balance m)
    by (intros; by apply keeps_balance_quiet).
  unfold check_lesson_marks.
  apply keeps_try; [done| |intros; apply Hq, quiet_logger].
  apply keeps_bind; [done|apply Hq, quiet_logger|]. intros _.
  apply keeps_bind; [done|apply Hq, quiet_call|].
  intros [|item items]; [apply Hq, quiet_logger|].
  apply keeps_for_each; [done..|]. intros group _.
  unfold process_group.
  apply keeps_bind; [done|apply Hq, quiet_get_lessons_to_check|].
  intros tasks.
  apply keeps_bind; [done|apply Hq, quiet_logger|]. intros _.
  apply keeps_for_each; [done..|]. intros entry _.
  apply keeps_for_each; [done..|]. intros user_id _.
  apply keeps_balance_notify_student.
Qed.


(** ** C7 *)

(** C7: when [get_all_group_schedules_today] returns an empty mapping,
    [check_lesson_marks] returns normally, having logged its start and
    then the warning that no schedules were found; nothing is sent, no
    key enters [notified_set], and the only external call made is the
    fetch itself. *)
Theorem no_schedules_ends_cycle (env : collaborators) (now : datetime)
    (today : date) (st : state) :
  get_all_group_schedules_today env (clock st) today = Ok [] ->
  check_lesson_marks env now today st
  = (Ok tt,
     mk_state (notified_set st)
       (log st ++ [MsgStarting now; MsgNoSchedules today])
       (sent st) (S (clock st)))
  /\ level_of (MsgNoSchedules today) = WARNING.
Proof.
  intros Hfetch. split; [|done].
  unfold check_lesson_marks, try_except, mbind, M_bind, logger, call.
  simpl. rewrite Hfetch. simpl. rewrite <- app_assoc. done.
Qed.

Lemma no_schedules_ends_cycle_witness :
  check_lesson_marks (sample_world [7] [] reliable_bot) (at_time 9 35 0)
    (mk_date 2024 3 5) st0
  = (Ok tt,
     mk_state ∅ [MsgStarting (at_time 9 35 0);
                 MsgNoSchedules (mk_date 2024 3 5)] [] 1)
  /\ level_of (MsgNoSchedules (mk_date 2024 3 5)) = WARNING.
Proof.
  apply (no_schedules_ends_cycle (sample_world [7] [] reliable_bot)
           (at_time 9 35 0) (mk_date 2024 3 5) st0).
  reflexivity.
Defined.

(** ** C2 *)






(** The cycle of the witness above, run to its end: user 7 is not
    recorded and user 8, whose turn comes after the failure, is served. *)
Example cycle_survives_failed_send :
  let env := sample_world [7; 8] [(Some 1, [algebra])] flaky_bot in
  let r := check_lesson_marks env (at_time 9 38 0) (mk_date 2024 3 5) st0 in
  r.1 = Ok tt
  /\ elements (notified_set r.2) = [(8, PStr "Algebra", Entry)]
  /\ sent r.2 = [(8, "Check in: Algebra 09:35")]
  /\ log r.2
     = [MsgStarting (at_time 9 38 0);
        MsgAddedCheck Entry (PStr "Algebra") (mk_time 9 40 0 0);
        MsgFound 1 (Some 1);
        MsgSendFailed 7 (ExternalError "TelegramForbiddenError");
        MsgSent 8 "Check in: Algebra 09:35"].
Proof. by vm_compute. Qed.

(** The scenario of the specification: at 09:38:00 the one student gets
    one message, with the module name and the start time cut to minutes,
    and the key is recorded; the cycle of 09:39:00 sends nothing. *)
Example algebra_scenario :
  let st1 := run_cycles sample_env [(at_time 9 38 0, mk_date 2024 3 5)] st0 in
  let st2 := run_cycles sample_env [(at_time 9 39 0, mk_date 2024 3 5)] st1 in
  sent st1 = [(7, "Check in: Algebra 09:35")]
  /\ elements (notified_set st1) = [(7, PStr "Algebra", Entry)]
  /\ sent st2 = sent st1
  /\ elements (notified_set st2) = elements (notified_set st1).
Proof. by vm_compute. Qed.

(** ** The scheduler *)

Lemma quiet_register_job (aps : apscheduler) (s : scheduler aps)
    (item : time * string) :
  quiet (register_job aps s item).
Proof. unfold register_job. auto 10 with quiet. Qed.

Lemma quiet_setup_body (aps : apscheduler) : quiet (setup_body aps).
Proof.
  unfold setup_body. pose proof (quiet_register_job aps).
  auto 20 with quiet.
Qed.

Lemma quiet_setup_lesson_check_scheduler (aps : apscheduler) :
  quiet (setup_lesson_check_scheduler aps).
Proof.
  unfold setup_lesson_check_scheduler. pose proof (quiet_setup_body aps).
  auto 10 with quiet.
Qed.

(** ** C6 *)

(** C6: the membership test on [notified_set] changes nothing, so two
    tests in a row give the same answer; every operation of the module
    leaves in the set the keys that were in it ([check_lesson_marks] may
    add keys, the other functions leave the set as it is); hence a key
    that was added is reported as notified after any number of later
    cycles, and the step of a student whose key is in the set sends
    nothing and only logs that the user was already notified. *)
Theorem notified_set_only_grows (env : collaborators) (aps : apscheduler) :
  (forall k st,
     (b1 ← is_notified k; b2 ← is_notified k; mret (b1, b2)) st
     = (Ok (bool_decide (k ∈ notified_set st),
            bool_decide (k ∈ notified_set st)), st))
  /\ (forall now today st,
        notified_set st ⊆ notified_set (check_lesson_marks env now today st).2)
  /\ (forall gid schedule_data current_time st,
        notified_set
          (get_lessons_to_check env gid schedule_data current_time st).2
        = notified_set st)
  /\ (forall t st, notified_set (parse_time t st).2 = notified_set st)
  /\ (forall st,
        notified_set (setup_lesson_check_scheduler aps st).2 = notified_set st)
  /\ (forall k st fires,
        (is_notified k (run_cycles env fires (notified_add k st).2)).1
        = Ok true)
  /\ (forall lesson a user_id name st,
        lesson !! "moduleName" = Some name ->
        (user_id, hash_norm name, a) ∈ notified_set st ->
        notify_student env lesson a user_id st
        = (Ok tt,
           mk_state (notified_set st)
             (log st ++ [MsgAlreadyNotified user_id name a])
             (sent st) (clock st))).
Proof.
  split; [done|].
  split.
  { intros now today st.
    by destruct (forward_check_lesson_marks env now today st) as (? & _ & ? & _). }
  split; [intros; apply quiet_get_lessons_to_check|].
  split; [intros; apply quiet_parse_time|].
  split; [intros; apply quiet_setup_lesson_check_scheduler|].
  split.
  { intros k st fires. unfold is_notified. simpl. f_equal.
    apply bool_decide_eq_true_2.
    destruct (run_cycles_extends env fires (notified_add k st).2)
      as (_ & _ & Hsub & _).
    apply Hsub. simpl. set_solver. }
  intros lesson a user_id name st Hname Hin.
  rewrite (notify_student_run _ _ _ _ _ _ Hname).
  by rewrite bool_decide_eq_true_2 by done.
Qed.

(** After the cycle of 09:38:00 the key of user 7 is recorded, and the
    step for that user only logs. *)
Lemma notified_set_only_grows_witness :
  let st1 := run_cycles sample_env [(at_time 9 38 0, mk_date 2024 3 5)] st0 in
  notify_student sample_env algebra Entry 7 st1
  = (Ok tt,
     mk_state (notified_set st1)
       (log st1 ++ [MsgAlreadyNotified 7 (PStr "Algebra") Entry])
       (sent st1) (clock st1)).
Proof.
  intros st1.
  apply (notified_set_only_grows sample_env sample_scheduler).
  - reflexivity.
  - apply (bool_decide_unpack _); vm_compute; exact I.
Defined.

(** ** Loops that raise *)

Lemma for_each_raise_at {A S} (body : A -> S -> M S) (pre post : list A)
    (x : A) (acc acc1 : S) (st st1 st2 : state) (e : exn) :
  for_each body pre acc st = (Ok acc1, st1) ->
  body x acc1 st1 = (Raise e, st2) ->
  for_each body (pre ++ x :: post) acc st = (Raise e, st2).
Proof.
  revert acc st. induction pre as [|y pre IH]; intros acc st; simpl.
  - intros [= -> ->] Hx. by erewrite bind_raise by exact Hx.
  - intros H Hx. apply bind_inv_ok in H as (acc' & st' & Hy & H).
    erewrite bind_ok by exact Hy. eauto.
Qed.

(** ** The calls of the set-up, one by one *)

(** The body of the loop over [REMINDER_TIMES], by the answers of
    [CronTrigger] and [add_job]. *)
Lemma register_job_run (aps : apscheduler) (s : scheduler aps) (c i : nat)
    (item : time * string) (st : state) :
  clock st = (c + 1 + 2 * i)%nat ->
  register_job aps s item st
  = match trigger_call aps c i item with
    | Raise e => (Raise e, logged [] 1 st)
    | Ok trg =>
        match add_job_call aps s c i item trg with
        | Raise e => (Raise e, logged [] 2 st)
        | Ok _ =>
            (Ok tt,
             logged [MsgAddedJob (hour item.1) (minute item.1) item.2] 2 st)
        end
    end.
Proof.
  intros Hc.
  unfold register_job, trigger_call, add_job_call, mbind, M_bind, call,
    logger, logged.
  rewrite <- Hc. replace (c + 2 + 2 * i)%nat with (S (clock st)) by lia.
  destruct (CronTrigger aps (clock st) (hour item.1) (minute item.1)
              "mon-sat") as [trg|e]; simpl.
  - destruct (add_job aps (S (clock st)) s trg (job_id item.1 item.2))
      as [[]|e]; simpl.
    + do 2 f_equal. lia.
    + rewrite app_nil_r. do 2 f_equal. lia.
  - rewrite app_nil_r. do 2 f_equal. lia.
Qed.

(** The loop, by the answers of [CronTrigger] and [add_job]: it returns
    when every job is registered, and raises what the first failing call
    raised. *)
Lemma register_jobs_run (aps : apscheduler) (s : scheduler aps) (c : nat)
    (items : list (time * string)) (k : nat) (st : state) :
  clock st = (c + 1 + 2 * k)%nat ->
  match for_each (fun it _ => register_job aps s it) items tt st with
  | (Ok _, st') =>
      (forall i item, items !! i = Some item ->
                      job_registered aps s c (k + i) item)
      /\ st' = logged ((fun it : time * string =>
                          MsgAddedJob (hour it.1) (minute it.1) it.2)
                         <$> items) (2 * length items) st
  | (Raise e, _) =>
      exists i item,
        items !! i = Some item
        /\ (forall j item', (j < i)%nat -> items !! j = Some item' ->
                            job_registered aps s c (k + j) item')
        /\ (trigger_call aps c (k + i) item = Raise e
            \/ exists trg,
                 trigger_call aps c (k + i) item = Ok trg
                 /\ add_job_call aps s c (k + i) item trg = Raise e)
  end.
Proof.
  revert k st. induction items as [|item items IH]; intros k st Hc.
  { cbn [for_each]. split; [done|]. by rewrite fmap_nil, logged_nil. }
  cbn [for_each]. unfold mbind, M_bind.
  rewrite (register_job_run aps s c k item st Hc).
  destruct (trigger_call aps c k item) as [trg|e] eqn:Htrg.
  2:{ exists 0%nat, item. rewrite Nat.add_0_r.
      split; [done|]. split; [lia|]. by left. }
  destruct (add_job_call aps s c k item trg) as [[]|e] eqn:Hadd.
  2:{ exists 0%nat, item. rewrite Nat.add_0_r.
      split; [done|]. split; [lia|]. right. by exists trg. }
  assert (Hk : job_registered aps s c k item) by (by exists trg).
  set (st1 := logged [MsgAddedJob (hour item.1) (minute item.1) item.2] 2 st).
  assert (Hc1 : clock st1 = (c + 1 + 2 * S k)%nat)
    by (subst st1; simpl; lia).
  specialize (IH (S k) st1 Hc1).
  destruct (for_each (fun it _ => register_job aps s it) items tt st1)
    as [[[]|e] st2].
  - destruct IH as [Hall ->]. split.
    + intros [|i] item' Hi; simpl in Hi.
      * injection Hi as <-. by rewrite Nat.add_0_r.
      * replace (k + S i)%nat with (S k + i)%nat by lia. by apply Hall.
    + subst st1. rewrite logged_logged, fmap_cons. do 2 f_equal. simpl. lia.
  - destruct IH as (i & item' & Hi & Hpre & Hfail).
    exists (S i), item'. split; [done|].
    replace (k + S i)%nat with (S k + i)%nat by lia. split; [|done].
    intros [|j] item'' Hj Hlook; simpl in Hlook.
    + injection Hlook as <-. by rewrite Nat.add_0_r.
    + replace (k + S j)%nat with (S k + j)%nat by lia.
      apply Hpre; [lia|done].
Qed.

(** The jobs of a list are registered one after the other when
    [CronTrigger] and [add_job] accept each of them. *)
Lemma register_jobs_registered (aps : apscheduler) (s : scheduler aps)
    (c : nat) (items : list (time * string)) (k : nat) (st : state) :
  clock st = (c + 1 + 2 * k)%nat ->
  (forall i item, items !! i = Some item ->
                  job_registered aps s c (k + i) item) ->
  for_each (fun it _ => register_job aps s it) items tt st
  = (Ok tt,
     logged ((fun it : time * string =>
                MsgAddedJob (hour it.1) (minute it.1) it.2) <$> items)
       (2 * length items) st).
Proof.
  intros Hc Hall. pose proof (register_jobs_run aps s c items k st Hc) as H.
  destruct (for_each (fun it _ => register_job aps s it) items tt st)
    as [[[]|e] st'].
  - by destruct H as [_ ->].
  - destruct H as (i & item & Hi & _ & Hfail).
    destruct (Hall i item Hi) as (trg & Htrg & Hadd).
    destruct Hfail as [Hfail|(trg' & Htrg' & Hfail)]; congruence.
Qed.

(** The state in which the [i]-th job is registered. *)
Lemma registered_prefix (aps : apscheduler) (s : scheduler aps) (st : state)
    (i : nat) :
  (i <= length REMINDER_TIMES)%nat ->
  jobs_registered aps s (clock st) i ->
  exists st1,
    for_each (fun it _ => register_job aps s it) (take i REMINDER_TIMES) tt
      (after_construction st)
    = (Ok tt, st1)
    /\ clock st1 = (clock st + 1 + 2 * i)%nat.
Proof.
  intros Hi Hreg. eexists. split.
  - apply (register_jobs_registered aps s (clock st) _ 0%nat).
    + simpl. lia.
    + intros j item Hj. apply lookup_take_Some in Hj as [Hj Hlt].
      by apply Hreg.
  - simpl. rewrite length_take. lia.
Qed.

(** ** C8 *)

Lemma setup_body_raises (aps : apscheduler) (st : state) (e : exn) :
  setup_failure aps st e -> exists st', setup_body aps st = (Raise e, st').
Proof.
  unfold setup_body.
  intros [Hc | s i item Hc Hitem Hreg Htrg
          | s i item trg Hc Hitem Hreg Htrg Hadd | s Hc Hreg Hs].
  - eexists. erewrite bind_raise; [done|]. unfold call. by rewrite Hc.
  - pose proof (lookup_lt_Some _ _ _ Hitem) as Hlt.
    destruct (registered_prefix aps s st i) as (st1 & Hpre & Hc1);
      [lia|done|].
    eexists. erewrite bind_ok by (unfold call; by rewrite Hc).
    erewrite bind_ok by done. fold (after_construction st).
    erewrite bind_raise; [done|].
    rewrite <- (take_drop_middle _ _ _ Hitem).
    eapply for_each_raise_at; [exact Hpre|].
    rewrite (register_job_run aps s (clock st) i item st1 Hc1).
    by rewrite Htrg.
  - pose proof (lookup_lt_Some _ _ _ Hitem) as Hlt.
    destruct (registered_prefix aps s st i) as (st1 & Hpre & Hc1);
      [lia|done|].
    eexists. erewrite bind_ok by (unfold call; by rewrite Hc).
    erewrite bind_ok by done. fold (after_construction st).
    erewrite bind_raise; [done|].
    rewrite <- (take_drop_middle _ _ _ Hitem).
    eapply for_each_raise_at; [exact Hpre|].
    rewrite (register_job_run aps s (clock st) i item st1 Hc1).
    by rewrite Htrg, Hadd.
  - destruct (registered_prefix aps s st (length REMINDER_TIMES))
      as (st1 & Hall & Hc1); [lia|done|].
    rewrite firstn_all in Hall.
    eexists. erewrite bind_ok by (unfold call; by rewrite Hc).
    erewrite bind_ok by done. fold (after_construction st).
    erewrite bind_ok by exact Hall.
    erewrite bind_raise; [done|]. unfold call.
    unfold start_call in Hs. by rewrite Hc1, Hs.
Qed.

(** C8: when a call to APScheduler raises [e] during the set-up (the
    construction of the scheduler, the [CronTrigger] or the [add_job] of
    one of the reminder times after the jobs before it were registered,
    or the start of the scheduler after all jobs were registered),
    [setup_lesson_check_scheduler] raises the same [e] to its caller;
    when [e] is an instance of [Exception], the failure is logged as an
    error before [e] is raised again. *)
Theorem setup_failure_is_raised (aps : apscheduler) (st : state) (e : exn) :
  setup_failure aps st e ->
  exists st',
    setup_lesson_check_scheduler aps st = (Raise e, st')
    /\ (is_Exception e = true ->
        last (log st') = Some (MsgSetupFailed e)
        /\ level_of (MsgSetupFailed e) = ERROR).
Proof.
  intros Hfail. destruct (setup_body_raises _ _ _ Hfail) as [st1 Hbody].
  unfold setup_lesson_check_scheduler, try_except. rewrite Hbody.
  destruct (is_Exception e).
  - eexists. split; [reflexivity|]. intros _. split; [|done].
    simpl. apply last_snoc.
  - eexists. split; [reflexivity|]. done.
Qed.

Lemma setup_failure_is_raised_witness :
  exists st',
    setup_lesson_check_scheduler conflicting_scheduler st0
    = (Raise (ExternalError "ConflictingIdError"), st')
    /\ (is_Exception (ExternalError "ConflictingIdError") = true ->
        last (log st')
        = Some (MsgSetupFailed (ExternalError "ConflictingIdError"))
        /\ level_of (MsgSetupFailed (ExternalError "ConflictingIdError"))
           = ERROR).
Proof.
  apply (setup_failure_is_raised conflicting_scheduler st0
           (ExternalError "ConflictingIdError")).
  apply (add_job_fails conflicting_scheduler st0 _ tt 6%nat
           (mk_time 13 5 0 0, "entry") (13, 5)).
  - reflexivity.
  - reflexivity.
  - intros i item Hi Hitem.
    do 6 (destruct i as [|i];
          [injection Hitem as <-; eexists; split; vm_compute; reflexivity|]).
    lia.
  - reflexivity.
  - vm_compute. reflexivity.
Defined.

(** The set-up with a scheduler that refuses the job of 13:05, run to
    its end: the six jobs before it are registered, the failure is
    logged, and the scheduler is not started.  With a [CronTrigger] that
    rejects the fields of 15:25 the set-up raises what [CronTrigger]
    raised; interrupted in [start], it raises the interrupt and logs no
    failure. *)
Example setup_fails :
  setup_lesson_check_scheduler conflicting_scheduler st0
  = (Raise (ExternalError "ConflictingIdError"),
     mk_state ∅
       (MsgSettingUp :: six_jobs_added
        ++ [MsgSetupFailed (ExternalError "ConflictingIdError")]) [] 15)
  /\ (setup_lesson_check_scheduler rejecting_scheduler st0).1
     = Raise (ExternalError "ValueError")
  /\ (let r := setup_lesson_check_scheduler interrupted_scheduler st0 in
      r.1 = Raise (BaseError "KeyboardInterrupt")
      /\ length (log r.2) = 13%nat
      /\ last (log r.2) = Some (MsgAddedJob 18 25 "exit")).
Proof. repeat split; by vm_compute. Qed.

(** When nothing fails, the twelve jobs are registered and the scheduler
    is started. *)
Example setup_succeeds :
  let r := setup_lesson_check_scheduler sample_scheduler st0 in
  r.1 = Ok tt
  /\ length (log r.2) = 14%nat
  /\ last (log r.2) = Some MsgSchedulerStarted.
Proof. by vm_compute. Qed.

(** ** C3 *)

(** The part of C3 that holds: a deadline that is a string and does not
    parse is logged as an error and its lesson is skipped; the loop goes
    on with the list as it was. *)
Lemma unparseable_checkin_skips_lesson (env : collaborators) (gid : Z)
    (now : time) (today_str : string) (lesson : dict) (acc : list task)
    (st : state) (students : list Z) (s : string) :
  eligible today_str lesson ->
  get_students_by_group_with_digest env (clock st) gid = Ok students ->
  students <> [] ->
  truthy (dict_get lesson "checkIn") = false ->
  lesson !! "checkinEnd" = Some (PStr s) ->
  strptime_HMS s = None ->
  lesson_body env (Some gid) now today_str lesson acc st
  = (Ok acc,
     mk_state (notified_set st) (log st ++ [MsgParseTimeFailed s]) (sent st)
       (S (clock st)))
  /\ level_of (MsgParseTimeFailed s) = ERROR.
Proof.
  intros [Hact (d & Hd & Hp)] Hst Hne Hflag Hend Hparse. split; [|done].
  unfold lesson_body.
  rewrite (proj2 (status_active lesson) Hact). simpl.
  unfold schedule_date_prefix. rewrite Hd, Hp.
  unfold mbind at 1, M_bind at 1, lift at 1.
  rewrite String.eqb_refl. simpl.
  unfold mbind at 1, M_bind at 1, call at 1. rewrite Hst.
  destruct students as [|u students]; [done|].
  unfold window_block. simpl. rewrite Hflag.
  unfold getitem. rewrite Hend.
  unfold mbind, M_bind, lift, parse_time. rewrite Hparse. done.
Qed.

(** The part that does not: when the block reads a deadline that the
    record lacks, the subscription raises [KeyError]; nothing is logged
    and the loop is left. *)
Lemma missing_checkin_raises (env : collaborators) (gid : Z)
    (now : time) (today_str : string) (lesson : dict) (acc : list task)
    (st : state) (students : list Z) (post : list dict) :
  eligible today_str lesson ->
  get_students_by_group_with_digest env (clock st) gid = Ok students ->
  students <> [] ->
  truthy (dict_get lesson "checkIn") = false ->
  lesson !! "checkinEnd" = None ->
  for_each (lesson_body env (Some gid) now today_str) (lesson :: post) acc st
  = (Raise (KeyError "checkinEnd"),
     mk_state (notified_set st) (log st) (sent st) (S (clock st))).
Proof.
  intros [Hact (d & Hd & Hp)] Hst Hne Hflag Hend.
  cbn [for_each]. erewrite bind_raise; [done|].
  unfold lesson_body.
  rewrite (proj2 (status_active lesson) Hact). simpl.
  unfold schedule_date_prefix. rewrite Hd, Hp.
  unfold mbind at 1, M_bind at 1, lift at 1.
  rewrite String.eqb_refl. simpl.
  unfold mbind at 1, M_bind at 1, call at 1. rewrite Hst.
  destruct students as [|u students]; [done|].
  unfold window_block. simpl. rewrite Hflag.
  unfold getitem. rewrite Hend. done.
Qed.

(** C3 fails on the code: with the lesson [algebra] alone the call
    returns its entry task; with a lesson in front of it whose
    [checkinEnd] is absent the call raises [KeyError], logs nothing and
    returns no task; with one whose [checkinEnd] is [None] it raises
    [TypeError]; and the exception ends the whole cycle of
    [check_lesson_marks], so that the group that comes next is not
    served either. *)
Theorem missing_deadline_aborts_batch :
  (get_lessons_to_check sample_env (Some 1) [algebra] (at_time 9 38 0) st0).1
  = Ok [mk_task algebra Entry [7]]
  /\ get_lessons_to_check sample_env (Some 1) [no_checkin_end; algebra]
       (at_time 9 38 0) st0
     = (Raise (KeyError "checkinEnd"), mk_state ∅ [] [] 1)
  /\ (get_lessons_to_check sample_env (Some 1) [null_checkin_end; algebra]
        (at_time 9 38 0) st0).1
     = Raise TypeError
  /\ (let env := sample_world [7]
                   [(Some 1, [no_checkin_end]); (Some 2, [algebra])]
                   reliable_bot in
      let r := check_lesson_marks env (at_time 9 38 0) (mk_date 2024 3 5)
                 st0 in
      sent r.2 = []
      /\ log r.2 = [MsgStarting (at_time 9 38 0);
                    MsgCycleError (KeyError "checkinEnd")]).
Proof. repeat split; by vm_compute. Qed.

(** * Further properties of the code *)

(** ** [get_week_start] *)

Example ordinals_and_weekdays :
  toordinal <$> [mk_date 1 1 1; mk_date 2020 1 1; mk_date 2024 1 1;
                 mk_date 2024 3 5]
  = [1; 737425; 738886; 738950]
  /\ weekday <$> [mk_date 1 1 1; mk_date 2024 3 4; mk_date 2024 3 5;
                  mk_date 2024 3 10]
     = [0; 0; 1; 6].
Proof. split; reflexivity. Qed.

Lemma days_before_month_nonneg (y m : Z) :
  1 <= m <= 12 -> 0 <= days_before_month y m.
Proof.
  intros Hm.
  assert (m = 1 \/ m = 2 \/ m = 3 \/ m = 4 \/ m = 5 \/ m = 6 \/ m = 7
          \/ m = 8 \/ m = 9 \/ m = 10 \/ m = 11 \/ m = 12) as Hcases by lia.
  unfold days_before_month.
  repeat destruct Hcases as [-> | Hcases]; try subst m; simpl;
    destruct (is_leap y); lia.
Qed.

Lemma toordinal_positive (d : date) : valid_date d -> 1 <= toordinal d.
Proof.
  intros (Hy & Hm & Hd). unfold toordinal.
  pose proof (days_before_month_nonneg (year d) (month d) Hm).
  assert (0 <= days_before_year (year d)).
  { unfold days_before_year. Z.div_mod_to_equations. lia. }
  lia.
Qed.

Lemma minus_one_day_ok (d : date) :
  valid_date d -> 1 < toordinal d -> exists y, minus_one_day d = Ok y.
Proof.
  intros Hv Hord.
  destruct (minus_one_day d) as [y|e] eqn:Hm; [eauto|].
  assert (e = OverflowError) as ->.
  { unfold minus_one_day in Hm.
    repeat match type of Hm with
           | context [if ?b then _ else _] => destruct b
           end; congruence. }
  apply minus_one_day_overflow in Hm; [|done]. subst d.
  by vm_compute in Hord.
Qed.

(** Going back [n] days succeeds as long as the ordinal stays positive,
    and lowers the ordinal by [n]. *)
Lemma minus_days_toordinal (d : date) (n : nat) :
  valid_date d -> Z.of_nat n < toordinal d ->
  exists y, minus_days d n = Ok y /\ valid_date y
            /\ toordinal y = toordinal d - Z.of_nat n.
Proof.
  revert d. induction n as [|n IH]; intros d Hv Hn; simpl.
  - exists d. split; [done|]. split; [done|]. lia.
  - destruct (minus_one_day_ok d Hv ltac:(lia)) as [d' Hd'].
    rewrite Hd'.
    pose proof (minus_one_day_valid _ _ Hv Hd') as Hv'.
    pose proof (minus_one_day_toordinal _ _ Hv Hd') as Ho.
    destruct (IH d' Hv' ltac:(lia)) as (y & Hy & Hvy & Hoy).
    exists y. split; [done|]. split; [done|]. lia.
Qed.

(** X1: for every valid date [get_week_start] returns, without
    overflow, a valid date that is a Monday, is the given date or one of
    the six days before it, and is its own week start. *)
Theorem get_week_start_monday (d : date) :
  valid_date d ->
  exists m,
    get_week_start d = Ok m
    /\ valid_date m
    /\ weekday m = 0
    /\ toordinal d - 6 <= toordinal m <= toordinal d
    /\ get_week_start m = Ok m.
Proof.
  intros Hv. pose proof (toordinal_positive d Hv) as Hpos.
  unfold get_week_start.
  assert (Hw : 0 <= weekday d < 7).
  { unfold weekday. apply Z.mod_pos_bound. lia. }
  assert (Hlt : weekday d < toordinal d).
  { unfold weekday in *. Z.div_mod_to_equations. lia. }
  destruct (minus_days_toordinal d (Z.to_nat (weekday d)) Hv ltac:(lia))
    as (m & Hm & Hvm & Hom).
  rewrite Z2Nat.id in Hom by lia.
  assert (Hwm : weekday m = 0).
  { unfold weekday in *. rewrite Hom. Z.div_mod_to_equations. lia. }
  exists m. split; [done|]. split; [done|]. split; [done|].
  split; [lia|]. by rewrite Hwm.
Qed.

Lemma get_week_start_monday_witness :
  exists m,
    get_week_start (mk_date 2024 3 10) = Ok m
    /\ valid_date m
    /\ weekday m = 0
    /\ toordinal (mk_date 2024 3 10) - 6 <= toordinal m
       <= toordinal (mk_date 2024 3 10)
    /\ get_week_start m = Ok m.
Proof.
  apply (get_week_start_monday (mk_date 2024 3 10)).
  unfold valid_date; simpl. unfold days_in_month; simpl. lia.
Defined.

Example get_week_start_sunday :
  get_week_start (mk_date 2024 3 10) = Ok (mk_date 2024 3 4)
  /\ get_week_start (mk_date 2024 3 1) = Ok (mk_date 2024 2 26)
  /\ get_week_start (mk_date 1 1 1) = Ok (mk_date 1 1 1).
Proof. repeat split; reflexivity. Qed.

(** ** More on [sanitize_schedule_data] *)

Lemma sanitize_item_idempotent (item : dict) :
  sanitize_item (sanitize_item item) = sanitize_item item.
Proof.
  apply map_eq. intros k. rewrite !sanitize_item_lookup.
  by case_bool_decide.
Qed.

(** X2: sanitizing is idempotent, and the records it leaves as they
    are are exactly those that hold whitelisted fields only. *)
Theorem sanitize_schedule_data_idempotent (data : list dict) :
  sanitize_schedule_data (sanitize_schedule_data data)
  = sanitize_schedule_data data
  /\ Forall (fun item : dict =>
               sanitize_item item = item
               <-> dom item ⊆ list_to_set needed_fields) data.
Proof.
  split.
  - unfold sanitize_schedule_data. rewrite map_map. apply map_ext.
    intros item. apply sanitize_item_idempotent.
  - apply Forall_forall. intros item _. split.
    + intros Heq k Hk. apply elem_of_dom in Hk as [v Hv].
      rewrite <- Heq, sanitize_item_lookup in Hv.
      case_bool_decide as Hin; [|done]. by apply elem_of_list_to_set.
    + intros Hdom. apply map_eq. intros k.
      rewrite sanitize_item_lookup. case_bool_decide as Hk; [done|].
      symmetry. apply not_elem_of_dom. intros Hin. apply Hk.
      apply Hdom in Hin. by apply elem_of_list_to_set in Hin.
Qed.

(** ** More on [get_lessons_to_check] *)

(** What one round of the loop body adds: nothing, the entry task, the
    exit task, or the entry task and then the exit task, all for its
    lesson and with one list of students. *)
Lemma lesson_body_shape env gid now today_str lesson acc st acc' st' :
  lesson_body env gid now today_str lesson acc st = (Ok acc', st') ->
  exists students new,
    acc' = acc ++ new
    /\ new `sublist_of` [mk_task lesson Entry students;
                         mk_task lesson Exit students].
Proof.
  unfold lesson_body.
  assert (Hnil : exists (students : list Z) new,
            acc = acc ++ new
            /\ new `sublist_of` [mk_task lesson Entry students;
                                 mk_task lesson Exit students]).
  { exists [], []. rewrite app_nil_r. split; [done|]. apply sublist_nil_l. }
  destruct (eq_str (dict_get lesson "scheduleStatus") "ACTIVE");
    simpl; [|intros [= <- _]; exact Hnil].
  intros H. apply bind_inv_ok in H as (p & st1 & _ & H).
  destruct (String.eqb p today_str); simpl in H;
    [|injection H as <- _; exact Hnil].
  destruct gid as [g|];
    [|apply bind_inv_ok in H as (? & ? & _ & [= <- _]); exact Hnil].
  apply bind_inv_ok in H as (students & st2 & _ & H).
  destruct students as [|u students];
    [apply bind_inv_ok in H as (? & ? & _ & [= <- _]); exact Hnil|].
  apply bind_inv_ok in H as (r1 & st3 & H1 & H).
  apply window_block_inv in H1.
  exists (u :: students).
  destruct H1 as [->|[->|(-> & _)]].
  - injection H as <- _. exists []. rewrite app_nil_r. split; [done|].
    apply sublist_nil_l.
  - apply bind_inv_ok in H as (r2 & st4 & H2 & H).
    apply window_block_inv in H2.
    destruct H2 as [->|[->|(-> & _)]]; injection H as <- _.
    + exists []. rewrite app_nil_r. split; [done|]. apply sublist_nil_l.
    + exists []. rewrite app_nil_r. split; [done|]. apply sublist_nil_l.
    + eexists. split; [done|]. by apply sublist_cons, sublist_skip.
  - apply bind_inv_ok in H as (r2 & st4 & H2 & H).
    apply window_block_inv in H2.
    destruct H2 as [->|[->|(-> & _)]]; injection H as <- _.
    + eexists. split; [done|]. apply sublist_skip, sublist_nil_l.
    + eexists. split; [done|]. apply sublist_skip, sublist_nil_l.
    + rewrite <- app_assoc. eexists. split; [done|]. done.
Qed.

Lemma for_each_lesson_body_shape env gid now today_str schedule acc st r st' :
  for_each (lesson_body env gid now today_str) schedule acc st = (Ok r, st') ->
  exists groups,
    r = acc ++ concat groups
    /\ Forall2 (fun lesson group =>
                  exists students,
                    group `sublist_of` [mk_task lesson Entry students;
                                        mk_task lesson Exit students])
         schedule groups.
Proof.
  revert acc st. induction schedule as [|lesson schedule IH]; intros acc st.
  - intros [= <- _]. exists []. simpl. by rewrite app_nil_r.
  - cbn [for_each]. intros H.
    apply bind_inv_ok in H as (acc1 & st1 & Hb & H).
    apply lesson_body_shape in Hb as (students & new & -> & Hnew).
    apply IH in H as (groups & -> & Hgroups).
    exists (new :: groups). simpl. rewrite app_assoc. split; [done|].
    constructor; eauto.
Qed.

Lemma produced_groups (env : collaborators) (group_id : option Z)
    (schedule_data : list dict) (current_time : datetime) (st : state) :
  exists groups,
    produced (get_lessons_to_check env group_id schedule_data
                current_time st)
    = concat groups
    /\ Forall2 (fun lesson group =>
                  exists students,
                    group `sublist_of` [mk_task lesson Entry students;
                                        mk_task lesson Exit students])
         schedule_data groups.
Proof.
  assert (Hnone : exists groups : list (list task),
     [] = concat groups
     /\ Forall2 (fun lesson group =>
                   exists students,
                     group `sublist_of` [mk_task lesson Entry students;
                                         mk_task lesson Exit students])
          schedule_data groups).
  { exists (replicate (length schedule_data) []). split.
    - induction schedule_data; simpl; [done|done].
    - induction schedule_data as [|l ls IH]; simpl; constructor; [|done].
      exists []. apply sublist_nil_l. }
  unfold produced, get_lessons_to_check.
  destruct (minus_one_day (dt_date current_time)) as [y|e] eqn:Hy.
  - erewrite bind_ok by done.
    destruct (for_each _ _ _ _) as [[r|e] st'] eqn:Hf; simpl; [|done].
    apply for_each_lesson_body_shape in Hf as (groups & -> & Hg).
    by exists groups.
  - by erewrite bind_raise by done.
Qed.

(** X3: the list [get_lessons_to_check] produces follows the schedule:
    it is the concatenation, lesson by lesson in schedule order, of
    nothing, the entry task, the exit task, or the entry task followed
    by the exit task of that lesson; so there are at most two tasks for
    each lesson of the schedule. *)
Theorem get_lessons_to_check_follows_schedule (env : collaborators)
    (group_id : option Z) (schedule_data : list dict)
    (current_time : datetime) (st : state) :
  (exists groups,
     produced (get_lessons_to_check env group_id schedule_data
                 current_time st)
     = concat groups
     /\ Forall2 (fun lesson group =>
                   exists students,
                     group `sublist_of` [mk_task lesson Entry students;
                                         mk_task lesson Exit students])
          schedule_data groups)
  /\ (length (produced (get_lessons_to_check env group_id schedule_data
                          current_time st))
      <= 2 * length schedule_data)%nat.
Proof.
  pose proof (produced_groups env group_id schedule_data current_time st)
    as Hgroups.
  split; [exact Hgroups|].
  destruct Hgroups as (groups & -> & Hg).
  induction Hg as [|lesson group schedule groups [students Hsub] _ IH];
    simpl; [lia|].
  rewrite length_app. apply sublist_length in Hsub. simpl in Hsub. lia.
Qed.

Lemma produced_lessons_in_schedule (env : collaborators)
    (group_id : option Z) (schedule_data : list dict)
    (current_time : datetime) (st : state) (t : task) :
  t ∈ produced (get_lessons_to_check env group_id schedule_data
                  current_time st) ->
  task_lesson t ∈ schedule_data.
Proof.
  destruct (produced_groups env group_id schedule_data current_time st)
    as (groups & -> & Hg).
  induction Hg as [|lesson group schedule groups [students Hsub] _ IH];
    simpl; [by intros ?%elem_of_nil|].
  intros [Hin|Hin]%elem_of_app; [|right; by apply IH].
  assert (task_lesson t = lesson) as ->; [|left].
  eapply elem_of_sublist in Hin; [|exact Hsub].
  apply elem_of_cons in Hin as [->|Hin]; [done|].
  by apply list_elem_of_singleton in Hin as ->.
Qed.

(** X4: whatever the schedule holds, every task [get_lessons_to_check]
    produces is for a lesson of the schedule, has a non-empty list of
    students, and is the task of a block whose flag is falsy and whose
    deadline parses to a time [d] with [now] in the closed window from
    [d - 5 minutes] to [d]. *)
Theorem produced_tasks_are_due (env : collaborators) (group_id : option Z)
    (schedule_data : list dict) (current_time : datetime) (st : state) :
  valid_time (dt_time current_time) ->
  Forall (fun t =>
            task_lesson t ∈ schedule_data
            /\ task_students t <> []
            /\ window_open (task_lesson t) (task_type t)
                 (dt_time current_time))
    (produced (get_lessons_to_check env group_id schedule_data
                 current_time st)).
Proof.
  intros Hnow. apply Forall_forall. intros t Hin.
  split; [by eapply produced_lessons_in_schedule|].
  pose proof (get_lessons_to_check_sound env group_id schedule_data
                current_time st) as Hs.
  rewrite Forall_forall in Hs.
  destruct (Hs t Hin) as (y & _ & _ & Hne & Hflag & d & Hd & Hw).
  split; [done|]. split; [done|]. exists d. split; [done|].
  apply in_window_closed; eauto using deadline_valid.
Qed.

Lemma produced_tasks_are_due_witness :
  Forall (fun t =>
            task_lesson t ∈ [cancelled; short_lesson]
            /\ task_students t <> []
            /\ window_open (task_lesson t) (task_type t)
                 (dt_time (at_time 9 38 0)))
    (produced (get_lessons_to_check sample_env (Some 1)
                 [cancelled; short_lesson] (at_time 9 38 0) st0)).
Proof.
  apply (produced_tasks_are_due sample_env (Some 1) [cancelled; short_lesson]
           (at_time 9 38 0) st0).
  unfold valid_time; simpl; lia.
Defined.

(** X5: a schedule that went through [sanitize_schedule_data] never
    yields a check task, for any group, time and state: the deadlines
    the blocks read are not among the whitelisted fields. *)
Theorem sanitized_schedule_yields_no_task (env : collaborators)
    (group_id : option Z) (data : list dict) (current_time : datetime)
    (st : state) :
  produced (get_lessons_to_check env group_id (sanitize_schedule_data data)
              current_time st) = [].
Proof.
  destruct (produced _) as [|t ts] eqn:Hp; [done|]. exfalso.
  assert (Hin : t ∈ produced (get_lessons_to_check env group_id
                                (sanitize_schedule_data data) current_time st))
    by (rewrite Hp; left).
  pose proof (produced_lessons_in_schedule _ _ _ _ _ _ Hin) as Hl.
  unfold sanitize_schedule_data in Hl.
  apply list_elem_of_fmap in Hl as (item & Hitem & _).
  pose proof (get_lessons_to_check_sound env group_id
                (sanitize_schedule_data data) current_time st) as Hs.
  rewrite Forall_forall in Hs.
  destruct (Hs t Hin) as (y & _ & _ & _ & _ & d & Hd & _).
  unfold deadline in Hd. rewrite Hitem, sanitize_item_lookup in Hd.
  by destruct (task_type t).
Qed.

(** X6: and when a sanitized record is ACTIVE and dated yesterday and
    its group has a digest-enabled student, the call does not just
    return nothing: reading [lesson["checkinEnd"]] raises [KeyError]. *)
Theorem sanitized_eligible_lesson_raises (env : collaborators) (gid : Z)
    (item : dict) (rest : list dict) (current_time : datetime) (st : state)
    (y : date) (students : list Z) :
  minus_one_day (dt_date current_time) = Ok y ->
  eligible (isoformat y) item ->
  get_students_by_group_with_digest env (clock st) gid = Ok students ->
  students <> [] ->
  (get_lessons_to_check env (Some gid) (sanitize_schedule_data (item :: rest))
     current_time st).1
  = Raise (KeyError "checkinEnd").
Proof.
  intros Hy [Hact (s & Hs & Hp)] Hst Hne.
  unfold get_lessons_to_check.
  erewrite bind_ok by (unfold lift; by rewrite Hy).
  unfold sanitize_schedule_data. rewrite map_cons.
  erewrite missing_checkin_raises; [done| |exact Hst|done| |].
  - split; [by rewrite sanitize_item_lookup|].
    exists s. by rewrite sanitize_item_lookup.
  - unfold dict_get. by rewrite sanitize_item_lookup.
  - by rewrite sanitize_item_lookup.
Qed.

Lemma sanitized_eligible_lesson_raises_witness :
  (get_lessons_to_check sample_env (Some 1)
     (sanitize_schedule_data [algebra; cancelled]) (at_time 9 38 0) st0).1
  = Raise (KeyError "checkinEnd").
Proof.
  apply (sanitized_eligible_lesson_raises sample_env 1 algebra [cancelled]
           (at_time 9 38 0) st0 (mk_date 2024 3 4) [7]).
  - reflexivity.
  - split; [reflexivity|]. eexists. split; reflexivity.
  - reflexivity.
  - discriminate.
Defined.

(** ** A group without an id, a group without students *)

Lemma lesson_body_eligible_no_group env now today_str lesson acc st :
  eligible today_str lesson ->
  lesson_body env None now today_str lesson acc st
  = (Ok acc, logged [MsgNoGroupId (dict_get lesson "moduleName")] 0 st).
Proof.
  intros [Hact (s & Hs & Hp)]. unfold lesson_body.
  rewrite (proj2 (status_active lesson) Hact). simpl.
  unfold schedule_date_prefix. rewrite Hs, Hp.
  unfold mbind, M_bind, lift, logger, logged.
  rewrite String.eqb_refl. simpl. by rewrite Nat.add_0_r.
Qed.

Lemma lesson_body_eligible_no_students env gid now today_str lesson acc st :
  eligible today_str lesson ->
  get_students_by_group_with_digest env (clock st) gid = Ok [] ->
  lesson_body env (Some gid) now today_str lesson acc st
  = (Ok acc, logged [MsgNoStudents gid] 1 st).
Proof.
  intros [Hact (s & Hs & Hp)] Hst. unfold lesson_body.
  rewrite (proj2 (status_active lesson) Hact). simpl.
  unfold schedule_date_prefix. rewrite Hs, Hp.
  unfold mbind, M_bind, lift, logger, logged, call.
  rewrite String.eqb_refl. simpl. rewrite Hst. simpl.
  by rewrite Nat.add_1_r.
Qed.

(** X7: for a group whose id is [None], on a schedule whose status and
    date fields can be tested, [get_lessons_to_check] returns no task,
    never asks for the students, and logs one warning for each ACTIVE
    lesson dated yesterday, in schedule order; the deadlines are not
    read. *)
Theorem no_group_id_no_task (env : collaborators) (schedule_data : list dict)
    (current_time : datetime) (st : state) (y : date) :
  minus_one_day (dt_date current_time) = Ok y ->
  Forall (datable (isoformat y)) schedule_data ->
  get_lessons_to_check env None schedule_data current_time st
  = (Ok [],
     logged ((fun lesson => MsgNoGroupId (dict_get lesson "moduleName"))
               <$> filter (eligible (isoformat y)) schedule_data) 0 st)
  /\ level_of (MsgNoGroupId PNone) = WARNING.
Proof.
  intros Hy Hall. split; [|done]. unfold get_lessons_to_check.
  erewrite bind_ok by (unfold lift; by rewrite Hy).
  generalize (@nil task) as acc. revert st.
  induction Hall as [|lesson schedule Hl _ IH]; intros st acc.
  - cbn [for_each]. by rewrite filter_nil, fmap_nil, logged_nil.
  - cbn [for_each]. destruct Hl as [Hpass|He].
    + erewrite bind_ok by by apply lesson_body_passed_over.
      rewrite filter_cons_False by by apply passed_over_not_eligible.
      apply IH.
    + erewrite bind_ok by by apply lesson_body_eligible_no_group.
      rewrite filter_cons_True by done. rewrite IH, fmap_cons.
      by rewrite logged_logged.
Qed.

Lemma no_group_id_no_task_witness :
  get_lessons_to_check sample_env None [cancelled; algebra; no_checkin_end]
    (at_time 9 38 0) st0
  = (Ok [],
     logged ((fun lesson => MsgNoGroupId (dict_get lesson "moduleName"))
               <$> filter (eligible (isoformat (mk_date 2024 3 4)))
                     [cancelled; algebra; no_checkin_end]) 0 st0)
  /\ level_of (MsgNoGroupId PNone) = WARNING.
Proof.
  apply (no_group_id_no_task sample_env [cancelled; algebra; no_checkin_end]
           (at_time 9 38 0) st0 (mk_date 2024 3 4)).
  - reflexivity.
  - constructor; [|constructor; [|constructor; [|constructor]]].
    + left. left. discriminate.
    + right. split; [reflexivity|]. eexists. split; reflexivity.
    + right. split; [reflexivity|]. eexists. split; reflexivity.
Defined.

(** X8: for a group none of whose students has the digest enabled, on a
    schedule whose status and date fields can be tested,
    [get_lessons_to_check] returns no task and raises nothing, whatever
    the deadline fields hold: it asks for the students once for each
    ACTIVE lesson dated yesterday and logs that there are none. *)
Theorem no_students_no_task (env : collaborators) (gid : Z)
    (schedule_data : list dict) (current_time : datetime) (st : state)
    (y : date) :
  minus_one_day (dt_date current_time) = Ok y ->
  Forall (datable (isoformat y)) schedule_data ->
  (forall t, get_students_by_group_with_digest env t gid = Ok []) ->
  let n := length (filter (eligible (isoformat y)) schedule_data) in
  get_lessons_to_check env (Some gid) schedule_data current_time st
  = (Ok [], logged (replicate n (MsgNoStudents gid)) n st).
Proof.
  intros Hy Hall Hst. simpl. unfold get_lessons_to_check.
  erewrite bind_ok by (unfold lift; by rewrite Hy).
  generalize (@nil task) as acc. revert st.
  induction Hall as [|lesson schedule Hl _ IH]; intros st acc.
  - cbn [for_each]. by rewrite filter_nil, logged_nil.
  - cbn [for_each]. destruct Hl as [Hpass|He].
    + erewrite bind_ok by by apply lesson_body_passed_over.
      rewrite filter_cons_False by by apply passed_over_not_eligible.
      apply IH.
    + erewrite bind_ok by by apply lesson_body_eligible_no_students.
      rewrite filter_cons_True by done. rewrite IH.
      by rewrite logged_logged.
Qed.

Lemma no_students_no_task_witness :
  let n := length (filter (eligible (isoformat (mk_date 2024 3 4)))
                     [cancelled; algebra; no_checkin_end]) in
  get_lessons_to_check (sample_world [] [] reliable_bot) (Some 1)
    [cancelled; algebra; no_checkin_end] (at_time 9 38 0) st0
  = (Ok [], logged (replicate n (MsgNoStudents 1)) n st0).
Proof.
  apply (no_students_no_task (sample_world [] [] reliable_bot) 1
           [cancelled; algebra; no_checkin_end] (at_time 9 38 0) st0
           (mk_date 2024 3 4)).
  - reflexivity.
  - constructor; [|constructor; [|constructor; [|constructor]]].
    + left. left. discriminate.
    + right. split; [reflexivity|]. eexists. split; reflexivity.
    + right. split; [reflexivity|]. eexists. split; reflexivity.
  - reflexivity.
Defined.

(** ** More on [check_lesson_marks] *)

(** X9: over any number of cycles, as many messages are delivered as
    keys enter [notified_set]: a message is delivered only for a key that
    was not recorded, and its key is recorded with it; so a process that
    starts with nothing sent and nothing recorded has delivered exactly
    one message for each recorded key. *)
Theorem one_message_for_each_key (env : collaborators)
    (fires : list (datetime * date)) (st : state) :
  (length (sent (run_cycles env fires st)) + size (notified_set st)
   = length (sent st) + size (notified_set (run_cycles env fires st)))%nat
  /\ length (sent (run_cycles env fires st0))
     = size (notified_set (run_cycles env fires st0)).
Proof.
  assert (H : forall s, same_balance s (run_cycles env fires s)).
  { induction fires as [|fire fires IH]; intros s; simpl.
    - apply same_balance_refl.
    - eapply same_balance_trans;
        [apply keeps_balance_check_lesson_marks|apply IH]. }
  split; [apply H|].
  specialize (H st0). unfold same_balance in H.
  change (notified_set st0) with (∅ : gset key) in H.
  change (sent st0) with (@nil (Z * string)) in H.
  rewrite size_empty in H. simpl in H. lia.
Qed.

(** X10: [check_lesson_marks] raises no instance of [Exception] to the
    scheduler: what leaves it is outside [Exception] (a cancelled task,
    an interrupt); and when the fetch of the schedules raises an
    instance [e] of [Exception], the cycle ends at once and normally,
    with [e] logged as an error, nothing sent and nothing recorded. *)
Theorem fetch_failure_ends_cycle (env : collaborators) (now : datetime)
    (today : date) (st : state) (e : exn) :
  get_all_group_schedules_today env (clock st) today = Raise e ->
  is_Exception e = true ->
  check_lesson_marks env now today st
  = (Ok tt, logged [MsgStarting now; MsgCycleError e] 1 st)
  /\ level_of (MsgCycleError e) = ERROR
  /\ forall env' now' today' st' e',
       (check_lesson_marks env' now' today' st').1 = Raise e' ->
       is_Exception e' = false.
Proof.
  intros Hfetch Hexc. split; [|split; [done|]].
  - unfold check_lesson_marks, try_except, mbind, M_bind, logger, call,
      logged.
    simpl. rewrite Hfetch, Hexc. simpl.
    by rewrite <- app_assoc, Nat.add_1_r.
  - intros env' now' today' st' e'. unfold check_lesson_marks, try_except.
    match goal with
    | |- context [match ?body st' with _ => _ end] =>
        destruct (body st') as [[[]|e1] st1]; [done|]
    end.
    destruct (is_Exception e1) eqn:He1; [done|].
    by intros [= <-].
Qed.

Lemma fetch_failure_ends_cycle_witness :
  let env := {| get_students_by_group_with_digest := fun _ _ => Ok [7];
                get_all_group_schedules_today :=
                  fun _ _ => Raise (ExternalError "OperationalError");
                get_user_language := fun _ _ => Ok None;
                LEXICON_MSG := sample_lexicon;
                randbelow := fun _ _ => 0%nat;
                str_format := sample_format;
                bot_send_message := reliable_bot |} in
  check_lesson_marks env (at_time 9 35 0) (mk_date 2024 3 5) st0
  = (Ok tt,
     logged [MsgStarting (at_time 9 35 0);
             MsgCycleError (ExternalError "OperationalError")] 1 st0)
  /\ level_of (MsgCycleError (ExternalError "OperationalError")) = ERROR
  /\ forall env' now' today' st' e',
       (check_lesson_marks env' now' today' st').1 = Raise e' ->
       is_Exception e' = false.
Proof.
  intros env.
  apply (fetch_failure_ends_cycle env (at_time 9 35 0) (mk_date 2024 3 5)
           st0 (ExternalError "OperationalError")).
  - reflexivity.
  - reflexivity.
Defined.

(** X11: unlike a failed send, a language for which the lexicon has no
    template for the action ends the loops: the step of that student
    raises the [KeyError] of the lookup before anything is sent, the
    students after it are not served, and neither are the tasks after
    this one. *)
Theorem missing_template_ends_loops (env : collaborators) (lesson : dict)
    (a : action) (user_id : Z) (name : pyval) (lang : string) (st : state)
    (e : exn) (rest : list Z) (tasks : list task) :
  lesson !! "moduleName" = Some name ->
  (user_id, hash_norm name, a) ∉ notified_set st ->
  get_user_language env (clock st) user_id = Ok (Some lang) ->
  lang <> "" ->
  lexicon env (template_key a) lang = Raise e ->
  notify_student env lesson a user_id st = (Raise e, logged [] 1 st)
  /\ for_each_ (notify_student env lesson a) (user_id :: rest) st
     = (Raise e, logged [] 1 st)
  /\ for_each_ (process_task env) (mk_task lesson a (user_id :: rest) :: tasks)
       st
     = (Raise e, logged [] 1 st).
Proof.
  intros Hname Hfresh Hlang Hne Hlex.
  assert (Hstep : notify_student env lesson a user_id st
                  = (Raise e, logged [] 1 st)).
  { rewrite (notify_student_run _ _ _ _ _ _ Hname).
    rewrite bool_decide_eq_false_2 by done.
    erewrite bind_raise; [done|]. unfold message_text.
    erewrite bind_ok by (unfold call; by rewrite Hlang).
    cbv beta iota zeta.
    apply String.eqb_neq in Hne. rewrite Hne.
    erewrite bind_raise; [done|]. unfold lift, logged. simpl.
    destruct a; simpl in Hlex; rewrite Hlex;
      by rewrite app_nil_r, Nat.add_1_r. }
  split; [exact Hstep|].
  assert (Hloop : for_each_ (notify_student env lesson a) (user_id :: rest) st
                  = (Raise e, logged [] 1 st)).
  { unfold for_each_. cbn [for_each]. by erewrite bind_raise by exact Hstep. }
  split; [exact Hloop|].
  unfold for_each_ at 1. cbn [for_each].
  erewrite bind_raise; [done|]. exact Hloop.
Qed.

Lemma missing_template_ends_loops_witness :
  let env := {| get_students_by_group_with_digest := fun _ _ => Ok [7; 8];
                get_all_group_schedules_today :=
                  fun _ _ => Ok [(Some 1, [algebra])];
                get_user_language := fun _ _ => Ok (Some "uz");
                LEXICON_MSG := sample_lexicon;
                randbelow := fun _ _ => 0%nat;
                str_format := sample_format;
                bot_send_message := reliable_bot |} in
  notify_student env algebra Entry 7 st0
  = (Raise (KeyError "uz"), logged [] 1 st0)
  /\ for_each_ (notify_student env algebra Entry) [7; 8] st0
     = (Raise (KeyError "uz"), logged [] 1 st0)
  /\ for_each_ (process_task env)
       [mk_task algebra Entry [7; 8]; mk_task algebra Exit [7; 8]] st0
     = (Raise (KeyError "uz"), logged [] 1 st0).
Proof.
  intros env.
  apply (missing_template_ends_loops env algebra Entry 7 (PStr "Algebra")
           "uz" st0 (KeyError "uz") [8] [mk_task algebra Exit [7; 8]]).
  - reflexivity.
  - apply not_elem_of_empty.
  - reflexivity.
  - discriminate.
  - reflexivity.
Defined.

Lemma random_choice_inv (env : collaborators) (seq : list string)
    (st st' : state) (tpl : string) :
  random_choice env seq st = (Ok tpl, st') ->
  tpl ∈ seq /\ st' = logged [] 1 st.
Proof.
  unfold random_choice. destruct seq as [|x seq]; [done|].
  remember (x :: seq) as l eqn:Hl.
  unfold mbind, M_bind, call, mret, M_ret. intros [= <- <-]. split.
  - apply list_elem_of_In, nth_In.
    apply Nat.mod_upper_bound. subst l. simpl. lia.
  - unfold logged. simpl. by rewrite app_nil_r, Nat.add_1_r.
Qed.

(** X12: a reminder text is what [str.format] makes of one of the
    lexicon's templates for the action and the language, the module
    name, and the start time (for an entry) or the end time (for an
    exit) without its last three characters; the language is the
    user's, or ["en"] when the user has none or an empty one; and
    getting the text changes nothing but the clock, by the two calls for
    the language and the random pick. *)
Theorem reminder_text_composition (env : collaborators) (lesson : dict)
    (a : action) (user_id : Z) (st st' : state) (text : string) :
  message_text env lesson a user_id st = (Ok text, st') ->
  exists lang templates tpl name s,
    (get_user_language env (clock st) user_id = Ok (Some lang) /\ lang <> ""
     \/ lang = "en"
        /\ (get_user_language env (clock st) user_id = Ok None
            \/ get_user_language env (clock st) user_id = Ok (Some "")))
    /\ lexicon env (template_key a) lang = Ok templates
    /\ tpl ∈ templates
    /\ lesson !! "moduleName" = Some name
    /\ lesson !! time_key a = Some (PStr s)
    /\ str_format env tpl name (drop_last3 s) = Ok text
    /\ st' = logged [] 2 st.
Proof.
  unfold message_text. intros H.
  apply bind_inv_ok in H as (l & st1 & Hl & H).
  unfold call in Hl. injection Hl as Hl <-.
  set (lang := match l with
               | Some s => if String.eqb s "" then "en" else s
               | None => "en"
               end) in *.
  apply bind_inv_ok in H as (templates & st2 & Hlex & H).
  unfold lift in Hlex. injection Hlex as Hlex <-.
  apply bind_inv_ok in H as (tpl & st3 & Hpick & H).
  apply random_choice_inv in Hpick as [Hin ->].
  apply bind_inv_ok in H as (name & st4 & Hname & H).
  unfold lift, getitem in Hname.
  destruct (lesson !! "moduleName") as [name'|] eqn:Hn; [|done].
  injection Hname as -> <-.
  apply bind_inv_ok in H as (t & st5 & Ht & H).
  unfold lift, hhmm, getitem in Ht.
  assert (Hkey : (match a with Entry => "startTime" | Exit => "endTime" end)
                 = time_key a) by by destruct a.
  rewrite Hkey in Ht.
  destruct (lesson !! time_key a) as [[| | |s]|] eqn:Hs; try done.
  injection Ht as <- <-.
  unfold lift in H. injection H as H <-.
  exists lang, templates, tpl, name, s.
  split.
  { subst lang. destruct l as [s'|]; [|right; auto].
    destruct (String.eqb_spec s' ""); [subst; right; auto|left; auto]. }
  split; [by destruct a|]. split; [done|]. split; [done|]. split; [done|].
  split; [done|].
  unfold logged. simpl. rewrite !app_nil_r. f_equal. lia.
Qed.

Lemma reminder_text_composition_witness :
  exists lang templates tpl name s,
    (get_user_language sample_env (clock st0) 7 = Ok (Some lang) /\ lang <> ""
     \/ lang = "en"
        /\ (get_user_language sample_env (clock st0) 7 = Ok None
            \/ get_user_language sample_env (clock st0) 7 = Ok (Some "")))
    /\ lexicon sample_env (template_key Exit) lang = Ok templates
    /\ tpl ∈ templates
    /\ algebra !! "moduleName" = Some name
    /\ algebra !! time_key Exit = Some (PStr s)
    /\ str_format sample_env tpl name (drop_last3 s)
       = Ok "Check out: Algebra 10:55"
    /\ mk_state ∅ [] [] 2 = logged [] 2 st0.
Proof.
  apply (reminder_text_composition sample_env algebra Exit 7 st0
           (mk_state ∅ [] [] 2) "Check out: Algebra 10:55").
  reflexivity.
Defined.

(** X19: a reminder is remembered by module name, not by lesson: when
    two lessons carry the same [moduleName] and a student is due the
    same action for both, the student gets the message of the first; for
    the second the step only logs that the user was already notified,
    and nothing is sent. *)
Theorem same_module_one_reminder (env : collaborators)
    (lesson1 lesson2 : dict) (a : action) (user_id : Z) (name : pyval)
    (text : string) (st st1 : state) :
  lesson1 !! "moduleName" = Some name ->
  lesson2 !! "moduleName" = Some name ->
  (user_id, hash_norm name, a) ∉ notified_set st ->
  message_text env lesson1 a user_id st = (Ok text, st1) ->
  bot_send_message env (clock st1) user_id text = Ok tt ->
  for_each_ (process_task env)
    [mk_task lesson1 a [user_id]; mk_task lesson2 a [user_id]] st
  = (Ok tt,
     mk_state ({[(user_id, hash_norm name, a)]} ∪ notified_set st)
       (log st1 ++ [MsgSent user_id text;
                    MsgAlreadyNotified user_id name a])
       (sent st ++ [(user_id, text)]) (S (clock st1))).
Proof.
  intros Hn1 Hn2 Hfresh Htext Hsend.
  pose proof (quiet_message_text env lesson1 a user_id st) as [Hq1 Hq2].
  rewrite Htext in Hq1, Hq2. simpl in Hq1, Hq2.
  set (st2 := mk_state ({[(user_id, hash_norm name, a)]} ∪ notified_set st)
                (log st1 ++ [MsgSent user_id text])
                (sent st ++ [(user_id, text)]) (S (clock st1))).
  assert (H1 : notify_student env lesson1 a user_id st = (Ok tt, st2)).
  { rewrite (notify_student_run _ _ _ _ _ _ Hn1).
    rewrite bool_decide_eq_false_2 by done.
    erewrite bind_ok by exact Htext.
    rewrite send_and_record_run, Hsend. subst st2. by rewrite Hq1, Hq2. }
  assert (H2 : notify_student env lesson2 a user_id st2
               = (Ok tt,
                  mk_state (notified_set st2)
                    (log st2 ++ [MsgAlreadyNotified user_id name a])
                    (sent st2) (clock st2))).
  { rewrite (notify_student_run _ _ _ _ _ _ Hn2).
    rewrite bool_decide_eq_true_2; [done|].
    subst st2. simpl. apply elem_of_union. left. by apply elem_of_singleton. }
  unfold for_each_, process_task, for_each_. simpl.
  unfold mbind, M_bind. rewrite H1. simpl. rewrite H2.
  subst st2. simpl. by rewrite <- app_assoc.
Qed.

Lemma same_module_one_reminder_witness :
  for_each_ (process_task sample_env)
    [mk_task algebra Entry [7]; mk_task short_lesson Entry [7]] st0
  = (Ok tt,
     mk_state ({[(7, hash_norm (PStr "Algebra"), Entry)]} ∪ notified_set st0)
       (log (mk_state ∅ [] [] 2)
        ++ [MsgSent 7 "Check in: Algebra 09:35";
            MsgAlreadyNotified 7 (PStr "Algebra") Entry])
       (sent st0 ++ [(7, "Check in: Algebra 09:35")])
       (S (clock (mk_state ∅ [] [] 2)))).
Proof.
  apply (same_module_one_reminder sample_env algebra short_lesson Entry 7
           (PStr "Algebra") "Check in: Algebra 09:35" st0
           (mk_state ∅ [] [] 2)).
  - reflexivity.
  - reflexivity.
  - apply not_elem_of_empty.
  - reflexivity.
  - reflexivity.
Defined.

(** ** More on [parse_time] *)

Example time_str_sample :
  time_str (mk_time 9 40 0 0) = "09:40:00"
  /\ time_str (mk_time 23 5 59 0) = "23:05:59".
Proof. split; reflexivity. Qed.

(** [strptime] also takes fields of one digit. *)
Example strptime_one_digit_fields :
  strptime_HMS "9:5:3" = Some (mk_time 9 5 3 0)
  /\ strptime_HMS "09:40" = None
  /\ strptime_HMS "24:00:00" = None
  /\ strptime_HMS "23:59:60" = None
  /\ strptime_HMS " 09:40:00" = None.
Proof. repeat split; reflexivity. Qed.

Lemma nat_of_digit_char (k : Z) :
  nat_of_ascii (digit_char k) = Z.to_nat (48 + k mod 10).
Proof.
  unfold digit_char. apply nat_ascii_embedding.
  pose proof (Z.mod_pos_bound k 10 ltac:(lia)). lia.
Qed.

Lemma in_class_digit_char (lo hi k : Z) :
  in_class lo hi (digit_char k) = (lo <=? k mod 10) && (k mod 10 <=? hi).
Proof.
  pose proof (Z.mod_pos_bound k 10 ltac:(lia)) as Hk.
  unfold in_class, is_digit, digit_val. rewrite nat_of_digit_char.
  rewrite Z2Nat.id by lia.
  replace (48 + k mod 10 - 48) with (k mod 10) by lia.
  assert ((48 <=? Z.to_nat (48 + k mod 10))%nat = true) as ->
    by (apply Nat.leb_le; lia).
  assert ((Z.to_nat (48 + k mod 10) <=? 57)%nat = true) as ->
    by (apply Nat.leb_le; lia).
  done.
Qed.

Lemma re_two_pad2 (lo1 hi1 lo2 hi2 n : Z) (r : string) :
  0 <= n < 100 ->
  re_two lo1 hi1 lo2 hi2 (pad2 n +:+ r)
  = if (lo1 <=? n / 10) && (n / 10 <=? hi1)
       && ((lo2 <=? n mod 10) && (n mod 10 <=? hi2))
    then [(n, r)] else [].
Proof.
  intros Hn. unfold pad2, re_two. simpl.
  rewrite !in_class_digit_char.
  assert (Hq : (n / 10) mod 10 = n / 10)
    by (apply Z.mod_small; Z.div_mod_to_equations; lia).
  rewrite Hq.
  destruct ((lo1 <=? n / 10) && (n / 10 <=? hi1)
            && ((lo2 <=? n mod 10) && (n mod 10 <=? hi2))); [|done].
  unfold digit_val. rewrite !nat_of_digit_char, !Z2Nat.id, Hq
    by (pose proof (Z.mod_pos_bound n 10 ltac:(lia));
        pose proof (Z.mod_pos_bound (n / 10) 10 ltac:(lia)); lia).
  do 2 f_equal. Z.div_mod_to_equations. lia.
Qed.

Lemma first_match_bind {A B} (l : list A) (f : A -> list B) (x : A) (y : B) :
  first_match l x -> first_match (f x) y -> first_match (l ≫= f) y.
Proof.
  intros [tl ->] [tl' Hf]. rewrite bind_cons, Hf. by eexists.
Qed.

Lemma re_H_pad2 (h : Z) (r : string) :
  0 <= h < 24 -> first_match (re_H (pad2 h +:+ r)) (h, r).
Proof.
  intros Hh. unfold re_H. rewrite !re_two_pad2 by lia.
  destruct (decide (20 <= h)).
  - assert ((2 <=? h / 10) && (h / 10 <=? 2)
            && ((0 <=? h mod 10) && (h mod 10 <=? 3)) = true)
      as -> by (rewrite !andb_true_iff, !Z.leb_le;
                Z.div_mod_to_equations; lia).
    by eexists.
  - assert ((2 <=? h / 10) = false) as ->
      by (apply Z.leb_gt; Z.div_mod_to_equations; lia).
    simpl.
    assert ((0 <=? h / 10) && (h / 10 <=? 1)
            && ((0 <=? h mod 10) && (h mod 10 <=? 9)) = true)
      as -> by (rewrite !andb_true_iff, !Z.leb_le;
                Z.div_mod_to_equations; lia).
    by eexists.
Qed.

Lemma re_M_pad2 (m : Z) (r : string) :
  0 <= m < 60 -> first_match (re_M (pad2 m +:+ r)) (m, r).
Proof.
  intros Hm. unfold re_M. rewrite !re_two_pad2 by lia.
  assert ((0 <=? m / 10) && (m / 10 <=? 5)
          && ((0 <=? m mod 10) && (m mod 10 <=? 9)) = true)
    as -> by (rewrite !andb_true_iff, !Z.leb_le;
              Z.div_mod_to_equations; lia).
  by eexists.
Qed.

Lemma re_S_pad2 (s : Z) (r : string) :
  0 <= s < 60 -> first_match (re_S (pad2 s +:+ r)) (s, r).
Proof.
  intros Hs. unfold re_S. rewrite !re_two_pad2 by lia.
  assert ((6 <=? s / 10) = false) as ->
    by (apply Z.leb_gt; Z.div_mod_to_equations; lia).
  simpl.
  assert ((0 <=? s / 10) && (s / 10 <=? 5)
          && ((0 <=? s mod 10) && (s mod 10 <=? 9)) = true)
    as -> by (rewrite !andb_true_iff, !Z.leb_le;
              Z.div_mod_to_equations; lia).
  by eexists.
Qed.

Lemma re_colon_app (r : string) : first_match (re_colon (":" +:+ r)) r.
Proof. by eexists. Qed.

Lemma re_HMS_time_str (t : time) :
  valid_time t ->
  first_match (re_HMS (time_str t)) (hour t, minute t, second t, "").
Proof.
  intros (Hh & Hm & Hs & _). unfold re_HMS, time_str.
  eapply first_match_bind; [by apply re_H_pad2|]. cbv beta iota.
  eapply first_match_bind; [apply re_colon_app|].
  eapply first_match_bind; [by apply re_M_pad2|]. cbv beta iota.
  eapply first_match_bind; [apply re_colon_app|].
  eapply first_match_bind.
  - replace (pad2 (second t)) with (pad2 (second t) +:+ "") by done.
    by apply re_S_pad2.
  - by eexists.
Qed.

(** X13: [parse_time] reads back every time of day written as
    [HH:MM:SS]: for a valid time [t] with no microseconds,
    [parse_time(str(t))] returns [t], logs nothing and leaves the state
    as it is; and the start time shown in a reminder, [str(t)[:-3]], is
    its [HH:MM]. *)
Theorem parse_time_reads_time_str (t : time) (st : state) :
  valid_time t ->
  microsecond t = 0 ->
  parse_time (PStr (time_str t)) st = (Ok (Some t), st)
  /\ drop_last3 (time_str t) = pad2 (hour t) +:+ ":" +:+ pad2 (minute t).
Proof.
  intros Hv Hus. split; [|done].
  unfold parse_time, strptime_HMS.
  destruct (re_HMS_time_str t Hv) as [tl ->]. simpl.
  destruct Hv as (_ & _ & Hs & _).
  assert ((second t <=? 59) = true) as -> by (apply Z.leb_le; lia).
  destruct t; simpl in *. by subst.
Qed.

Lemma parse_time_reads_time_str_witness :
  parse_time (PStr (time_str (mk_time 18 25 0 0))) st0
  = (Ok (Some (mk_time 18 25 0 0)), st0)
  /\ drop_last3 (time_str (mk_time 18 25 0 0))
     = pad2 (hour (mk_time 18 25 0 0)) +:+ ":"
       +:+ pad2 (minute (mk_time 18 25 0 0)).
Proof.
  apply (parse_time_reads_time_str (mk_time 18 25 0 0) st0).
  - unfold valid_time; simpl; lia.
  - reflexivity.
Defined.

Lemma re_two_consumes lo1 hi1 lo2 hi2 s v r :
  (v, r) ∈ re_two lo1 hi1 lo2 hi2 s ->
  String.length s = S (S (String.length r)).
Proof.
  unfold re_two. destruct s as [|c1 [|c2 s]]; try (by intros ?%elem_of_nil).
  destruct (in_class lo1 hi1 c1 && in_class lo2 hi2 c2);
    [|by intros ?%elem_of_nil].
  intros Hin%list_elem_of_singleton. by injection Hin as -> ->.
Qed.

Lemma re_one_consumes s v r :
  (v, r) ∈ re_one s -> String.length s = S (String.length r).
Proof.
  unfold re_one. destruct s as [|c s]; [by intros ?%elem_of_nil|].
  destruct (is_digit c); [|by intros ?%elem_of_nil].
  intros Hin%list_elem_of_singleton. by injection Hin as -> ->.
Qed.

Lemma re_colon_consumes s r :
  r ∈ re_colon s -> String.length s = S (String.length r).
Proof.
  unfold re_colon. destruct s as [|c s]; [by intros ?%elem_of_nil|].
  destruct (Ascii.eqb c ":"); [|by intros ?%elem_of_nil].
  by intros ->%list_elem_of_singleton.
Qed.

Lemma re_field_consumes (re : string -> list (Z * string)) s v r :
  re = re_H \/ re = re_M \/ re = re_S ->
  (v, r) ∈ re s ->
  (String.length r + 1 <= String.length s <= String.length r + 2)%nat.
Proof.
  intros [-> | [-> | ->]]; unfold re_H, re_M, re_S; rewrite !elem_of_app.
  - intros [H|[H|H]];
      [apply re_two_consumes in H|apply re_two_consumes in H
      |apply re_one_consumes in H]; lia.
  - intros [H|H];
      [apply re_two_consumes in H|apply re_one_consumes in H]; lia.
  - intros [H|[H|H]];
      [apply re_two_consumes in H|apply re_two_consumes in H
      |apply re_one_consumes in H]; lia.
Qed.

Lemma re_HMS_consumes s h m sec r :
  (h, m, sec, r) ∈ re_HMS s ->
  (String.length r + 5 <= String.length s <= String.length r + 8)%nat.
Proof.
  unfold re_HMS. intros Hin.
  apply list_elem_of_bind in Hin as ([h' r1] & Hin & HH).
  apply list_elem_of_bind in Hin as (r2 & Hin & Hc1).
  apply list_elem_of_bind in Hin as ([m' r3] & Hin & HM).
  apply list_elem_of_bind in Hin as (r4 & Hin & Hc2).
  apply list_elem_of_bind in Hin as ([s' r5] & Hin & HS).
  apply list_elem_of_singleton in Hin. injection Hin as -> -> -> ->.
  apply (re_field_consumes re_H) in HH; [|auto].
  apply (re_field_consumes re_M) in HM; [|auto].
  apply (re_field_consumes re_S) in HS; [|auto].
  apply re_colon_consumes in Hc1, Hc2. lia.
Qed.

(** X14: a string shorter than 5 or longer than 8 characters is never a
    time for [parse_time]: it returns [None] and logs the failure as an
    error.  So a deadline with a date, a zone or fractions of a second
    is rejected. *)
Theorem parse_time_rejects_by_length (s : string) (st : state) :
  ~ (5 <= String.length s <= 8)%nat ->
  parse_time (PStr s) st = (Ok None, logged [MsgParseTimeFailed s] 0 st)
  /\ level_of (MsgParseTimeFailed s) = ERROR.
Proof.
  intros Hlen. split; [|done]. unfold parse_time, strptime_HMS.
  destruct (re_HMS s) as [|[[[h m] sec] rest] l] eqn:Hre.
  - unfold mbind, M_bind, logger, logged. simpl. by rewrite Nat.add_0_r.
  - assert (Hin : (h, m, sec, rest) ∈ re_HMS s) by (rewrite Hre; left).
    apply re_HMS_consumes in Hin.
    destruct (String.eqb_spec rest "") as [->|Hne]; simpl.
    + simpl in Hin. lia.
    + unfold mbind, M_bind, logger, logged. simpl. by rewrite Nat.add_0_r.
Qed.

Lemma parse_time_rejects_by_length_witness :
  parse_time (PStr "2024-03-04T09:40:00") st0
  = (Ok None, logged [MsgParseTimeFailed "2024-03-04T09:40:00"] 0 st0)
  /\ level_of (MsgParseTimeFailed "2024-03-04T09:40:00") = ERROR.
Proof.
  apply (parse_time_rejects_by_length "2024-03-04T09:40:00" st0).
  simpl. lia.
Defined.

(** X15: the three outcomes of [parse_time]: a valid time of day with no
    microseconds, for a string, with the state untouched; [None], for a
    string, with the failure logged; [TypeError], for a value that is
    not a string, with the state untouched.  It never raises for a
    string and never returns a time that [datetime.time] would refuse. *)
Theorem parse_time_outcomes (v : pyval) (st : state) :
  match parse_time v st with
  | (Ok (Some d), st') =>
      st' = st /\ valid_time d /\ microsecond d = 0
      /\ exists s, v = PStr s /\ strptime_HMS s = Some d
  | (Ok None, st') =>
      exists s, v = PStr s /\ strptime_HMS s = None
                /\ st' = logged [MsgParseTimeFailed s] 0 st
  | (Raise e, st') =>
      e = TypeError /\ st' = st /\ forall s, v <> PStr s
  end.
Proof.
  destruct v as [| | |s]; simpl; try done.
  destruct (strptime_HMS s) as [d|] eqn:Hs; simpl.
  - split; [done|]. apply strptime_HMS_valid in Hs as Hv.
    destruct Hv. eauto.
  - exists s. split; [done|]. split; [done|].
    unfold logged. by rewrite Nat.add_0_r.
Qed.

(** ** The window, to the microsecond *)

(** X16: for a deadline [d] from 00:05:00 on, the window test of the
    loop body succeeds exactly for the times of day from 300 seconds
    before [d] to [d], to the microsecond: it succeeds at [d] and five
    minutes before [d], and fails one microsecond after [d] and one
    microsecond before [d - 5 minutes]. *)
Theorem window_is_exact (d now : time) :
  valid_time d ->
  valid_time now ->
  us_of_time (mk_time 0 5 0 0) <= us_of_time d ->
  (in_window d now = true
   <-> us_of_time d - 300000000 <= us_of_time now <= us_of_time d)
  /\ in_window d d = true
  /\ in_window d (minus_minutes d 5) = true
  /\ (us_of_time now = us_of_time d + 1 -> in_window d now = false)
  /\ (us_of_time now = us_of_time d - 300000001 -> in_window d now = false).
Proof.
  intros Hd Hn Hlate.
  change (us_of_time (mk_time 0 5 0 0)) with 300000000 in Hlate.
  pose proof (us_of_time_range _ Hd) as Hr.
  assert (Hiff : forall t, valid_time t ->
            in_window d t = true
            <-> us_of_time d - 300000000 <= us_of_time t <= us_of_time d)
    by (intros; by apply in_window_late).
  assert (Hws : us_of_time (minus_minutes d 5) = us_of_time d - 300000000).
  { rewrite us_minus_minutes. apply Z.mod_small. unfold us_per_day in *. lia. }
  split; [by apply Hiff|].
  split; [apply Hiff; [done|lia]|].
  split; [apply Hiff; [apply minus_minutes_valid|lia]|].
  split; intros Hus; apply not_true_is_false; intros Hw;
    apply Hiff in Hw; [lia|done|lia|done].
Qed.

Lemma window_is_exact_witness :
  (in_window (mk_time 9 40 0 0) (mk_time 9 40 0 1) = true
   <-> us_of_time (mk_time 9 40 0 0) - 300000000
       <= us_of_time (mk_time 9 40 0 1) <= us_of_time (mk_time 9 40 0 0))
  /\ in_window (mk_time 9 40 0 0) (mk_time 9 40 0 0) = true
  /\ in_window (mk_time 9 40 0 0) (minus_minutes (mk_time 9 40 0 0) 5) = true
  /\ (us_of_time (mk_time 9 40 0 1) = us_of_time (mk_time 9 40 0 0) + 1 ->
      in_window (mk_time 9 40 0 0) (mk_time 9 40 0 1) = false)
  /\ (us_of_time (mk_time 9 40 0 1)
      = us_of_time (mk_time 9 40 0 0) - 300000001 ->
      in_window (mk_time 9 40 0 0) (mk_time 9 40 0 1) = false).
Proof.
  apply (window_is_exact (mk_time 9 40 0 0) (mk_time 9 40 0 1)).
  - unfold valid_time; simpl; lia.
  - unfold valid_time; simpl; lia.
  - vm_compute. discriminate.
Defined.

(** ** More on [setup_lesson_check_scheduler] *)

(** X17: [setup_lesson_check_scheduler] raises only what one of its
    calls to APScheduler raised: the constructor, the [CronTrigger] or
    the [add_job] of a reminder time, the jobs of the times before it
    being registered, or [start], all jobs being registered.  When it
    returns, the constructor returned a scheduler, [CronTrigger] made
    the trigger and [add_job] accepted the job of every reminder time,
    in the order of [REMINDER_TIMES], and [start] returned. *)
Theorem setup_outcomes (aps : apscheduler) (st : state) :
  match (setup_lesson_check_scheduler aps st).1 with
  | Raise e => setup_failure aps st e
  | Ok _ =>
      exists s,
        AsyncIOScheduler aps (clock st) "UTC" = Ok s
        /\ jobs_registered aps s (clock st) (length REMINDER_TIMES)
        /\ start_call aps s (clock st) = Ok tt
  end.
Proof.
  assert (Hfst : (setup_lesson_check_scheduler aps st).1
                 = (setup_body aps st).1).
  { unfold setup_lesson_check_scheduler, try_except.
    destruct (setup_body aps st) as [[[]|e] st']; [done|].
    by destruct (is_Exception e). }
  rewrite Hfst. unfold setup_body.
  destruct (AsyncIOScheduler aps (clock st) "UTC") as [s|e] eqn:Hc.
  2:{ erewrite bind_raise by (unfold call; by rewrite Hc).
      by apply construction_fails. }
  erewrite bind_ok by (unfold call; by rewrite Hc).
  erewrite bind_ok by done. fold (after_construction st).
  assert (Hc0 : clock (after_construction st) = (clock st + 1 + 2 * 0)%nat)
    by (simpl; lia).
  pose proof (register_jobs_run aps s (clock st) REMINDER_TIMES 0
                (after_construction st) Hc0) as Hrun.
  destruct (for_each (fun it _ => register_job aps s it) REMINDER_TIMES tt
              (after_construction st)) as [[[]|e] st1] eqn:Hjobs.
  - destruct Hrun as [Hall ->].
    assert (Hreg : jobs_registered aps s (clock st) (length REMINDER_TIMES)).
    { intros i item _ Hi. exact (Hall i item Hi). }
    erewrite bind_ok by exact Hjobs.
    match goal with
    | |- context [call ?f] =>
        assert (Hstart : forall st2, clock st2
                                     = (clock st + 1
                                        + 2 * length REMINDER_TIMES)%nat ->
                  call f st2
                  = (start_call aps s (clock st),
                     mk_state (notified_set st2) (log st2) (sent st2)
                       (S (clock st2))))
          by (intros st2 Hst2; unfold call, start_call; by rewrite Hst2)
    end.
    destruct (start_call aps s (clock st)) as [[]|e] eqn:Hs.
    + erewrite bind_ok by (apply Hstart; simpl; lia). simpl. by exists s.
    + erewrite bind_raise by (apply Hstart; simpl; lia). simpl.
      by eapply start_fails.
  - erewrite bind_raise by exact Hjobs. simpl.
    destruct Hrun as (i & item & Hi & Hpre & Hfail).
    assert (Hreg : jobs_registered aps s (clock st) i).
    { intros j item' Hj Hlook. exact (Hpre j item' Hj Hlook). }
    destruct Hfail as [Htrg|(trg & Htrg & Hadd)].
    + by eapply trigger_fails.
    + by eapply add_job_fails.
Qed.

Lemma register_job_ok (aps : apscheduler) (s : scheduler aps)
    (item : time * string) (st : state) :
  (forall c h m, exists trg, CronTrigger aps c h m "mon-sat" = Ok trg) ->
  (forall c trg id, add_job aps c s trg id = Ok tt) ->
  register_job aps s item st
  = (Ok tt, logged [MsgAddedJob (hour item.1) (minute item.1) item.2] 2 st).
Proof.
  intros Htrg Hadd. unfold register_job, mbind, M_bind, call, logger, logged.
  destruct (Htrg (clock st) (hour item.1) (minute item.1)) as [trg ->].
  simpl. rewrite Hadd. simpl. do 2 f_equal. lia.
Qed.

Lemma register_jobs_ok (aps : apscheduler) (s : scheduler aps)
    (items : list (time * string)) (st : state) :
  (forall c h m, exists trg, CronTrigger aps c h m "mon-sat" = Ok trg) ->
  (forall c trg id, add_job aps c s trg id = Ok tt) ->
  for_each (fun it _ => register_job aps s it) items tt st
  = (Ok tt,
     logged ((fun it : time * string =>
                MsgAddedJob (hour it.1) (minute it.1) it.2) <$> items)
       (2 * length items) st).
Proof.
  intros Htrg Hadd. revert st.
  induction items as [|item items IH]; intros st.
  - cbn [for_each]. by rewrite fmap_nil, logged_nil.
  - cbn [for_each]. erewrite bind_ok by by apply register_job_ok.
    rewrite IH, logged_logged, fmap_cons. do 2 f_equal. simpl. lia.
Qed.

(** X18: when no call to the scheduler fails,
    [setup_lesson_check_scheduler] returns after 26 calls: it constructs
    the scheduler, makes a trigger and adds a job for each of the twelve
    reminder times, in the order of [REMINDER_TIMES], and starts the
    scheduler, logging each step; and the twelve job ids are distinct,
    so that no job replaces another. *)
Theorem setup_registers_all_jobs (aps : apscheduler) (s : scheduler aps)
    (st : state) :
  AsyncIOScheduler aps (clock st) "UTC" = Ok s ->
  (forall c h m, exists trg, CronTrigger aps c h m "mon-sat" = Ok trg) ->
  (forall c trg id, add_job aps c s trg id = Ok tt) ->
  (forall c, start aps c s = Ok tt) ->
  setup_lesson_check_scheduler aps st
  = (Ok tt,
     logged ([MsgSettingUp]
             ++ ((fun it : time * string =>
                    MsgAddedJob (hour it.1) (minute it.1) it.2)
                   <$> REMINDER_TIMES)
             ++ [MsgSchedulerStarted]) 26 st)
  /\ NoDup ((fun it : time * string => job_id it.1 it.2) <$> REMINDER_TIMES).
Proof.
  intros Hc Htrg Hadd Hstart. split.
  - assert (Hbody : setup_body aps st
                    = (Ok tt,
                       logged ([MsgSettingUp]
                               ++ ((fun it : time * string =>
                                      MsgAddedJob (hour it.1) (minute it.1)
                                        it.2) <$> REMINDER_TIMES)
                               ++ [MsgSchedulerStarted]) 26 st)).
    { unfold setup_body.
      erewrite bind_ok by (unfold call; by rewrite Hc).
      erewrite bind_ok by done. fold (after_construction st).
      erewrite bind_ok by by apply register_jobs_ok.
      erewrite bind_ok by (unfold call; by rewrite Hstart).
      unfold logger, logged, after_construction. simpl.
      rewrite <- !app_assoc. do 2 f_equal. lia. }
    unfold setup_lesson_check_scheduler, try_except. by rewrite Hbody.
  - apply (bool_decide_unpack _). by vm_compute.
Qed.

Lemma setup_registers_all_jobs_witness :
  setup_lesson_check_scheduler sample_scheduler st0
  = (Ok tt,
     logged ([MsgSettingUp]
             ++ ((fun it : time * string =>
                    MsgAddedJob (hour it.1) (minute it.1) it.2)
                   <$> REMINDER_TIMES)
             ++ [MsgSchedulerStarted]) 26 st0)
  /\ NoDup ((fun it : time * string => job_id it.1 it.2) <$> REMINDER_TIMES).
Proof.
  apply (setup_registers_all_jobs sample_scheduler tt st0).
  - reflexivity.
  - intros c h m. by eexists.
  - reflexivity.
  - reflexivity.
Defined.
